(** * The CSQLite bundle store (Sources/CSQLite/csqlite.c)

    A shallow embedding of the C wrapper [csqlite.c] and of the part of the
    SQLite engine it drives, followed by the properties of the store.

    Conventions of the embedding.
    - A C pointer is an [option]: [None] is the null pointer, [Some a] a
      pointer to a cell that holds [a].  An output parameter is passed as
      the pointer together with the pointee's value before the call and
      returned with the pointee's value after it.
    - C strings are [string]s, byte buffers are [list byte].
    - Machine integers are [Z]; every conversion the C code performs
      ([size_t] to [int], [uint64_t] to [sqlite3_int64] and back, ...) is
      written out with its wrap-around.  The data model is LP64
      ([int] 32 bits, [size_t] and pointers 64 bits).
    - The database connection is threaded explicitly: every function that
      takes the handle returns the state of the connection after the call.
    - [malloc] is a parameter: [malloc n = true] when the C library returns
      a non-null pointer for a request of [n] bytes.  ISO C leaves the
      result of [malloc(0)] to the implementation (null or not). *)

From Stdlib Require Import ZArith List String Ascii Bool Lia.
From Stdlib Require Import Strings.Byte.
Import ListNotations.
Open Scope Z_scope.

(* ================================================================= *)
(** ** C integer conversions *)

Module CInt.

Definition INT_MAX : Z := 2147483647.
Definition UINT64_MAX : Z := 18446744073709551615.

(** Conversion to a 32-bit [int] (two's complement wrap-around). *)
Definition to_int (z : Z) : Z := (z + 2 ^ 31) mod 2 ^ 32 - 2 ^ 31.

(** Conversion to [int64_t] / [sqlite3_int64]. *)
Definition to_int64 (z : Z) : Z := (z + 2 ^ 63) mod 2 ^ 64 - 2 ^ 63.

(** Conversion to [uint64_t]. *)
Definition to_uint64 (z : Z) : Z := z mod 2 ^ 64.

(** Conversion to [size_t] (64 bits). *)
Definition to_size_t (z : Z) : Z := z mod 2 ^ 64.

Definition is_int (z : Z) : Prop := - 2 ^ 31 <= z <= INT_MAX.
Definition is_uint64 (z : Z) : Prop := 0 <= z <= UINT64_MAX.

(** [sizeof(char* )] and [sizeof(CSQLiteBundleMetadata)] on LP64. *)
Definition sizeof_ptr : Z := 8.
Definition sizeof_CSQLiteBundleMetadata : Z := 48.

End CInt.

(* ================================================================= *)
(** ** The SQLite engine, as far as csqlite.c uses it

    The engine is the external collaborator of the wrapper.  The model
    covers one connection to a database that holds the two tables of
    [CREATE_TABLES_SQL], the statements csqlite.c prepares, explicit
    transactions and the change counter.  I/O faults of the engine are
    outside the model: a statement that is valid for the schema prepares
    and runs. *)

Module Sqlite.

(** Result codes of the engine that the wrapper inspects or that the
    modelled calls produce. *)
Inductive rc : Type :=
| SQLITE_OK
| SQLITE_ERROR
| SQLITE_TOOBIG
| SQLITE_CONSTRAINT
| SQLITE_MISMATCH
| SQLITE_ROW
| SQLITE_DONE.

Definition rc_eqb (a b : rc) : bool :=
  match a, b with
  | SQLITE_OK, SQLITE_OK
  | SQLITE_ERROR, SQLITE_ERROR
  | SQLITE_TOOBIG, SQLITE_TOOBIG
  | SQLITE_CONSTRAINT, SQLITE_CONSTRAINT
  | SQLITE_MISMATCH, SQLITE_MISMATCH
  | SQLITE_ROW, SQLITE_ROW
  | SQLITE_DONE, SQLITE_DONE => true
  | _, _ => false
  end.

(** Default compile-time limit on the length of a string or blob. *)
Definition SQLITE_MAX_LENGTH : Z := 1000000000.

(** A dynamically typed SQL value. *)
Inductive value : Type :=
| VNull
| VInt (z : Z)
| VText (s : string)
| VBlob (b : list byte).

(** Rows of
    [bundles (id TEXT PRIMARY KEY, data BLOB NOT NULL)].
    A column declared [TEXT PRIMARY KEY] may hold NULL, hence the
    [option]: SQLite implies NOT NULL for a primary key only when the
    column is an INTEGER PRIMARY KEY, the table is WITHOUT ROWID or STRICT,
    or the column says NOT NULL itself (SQLite documentation, CREATE
    TABLE, "PRIMARY KEY"); NULLs do not collide under the uniqueness of
    the key. *)
Record bundle_row : Type := {
  bundle_key : option string;
  bundle_blob : list byte
}.

(** Rows of
    [bundle_metadata (id TEXT PRIMARY KEY, source TEXT NOT NULL,
     destination TEXT NOT NULL, creation_time INTEGER NOT NULL,
     size INTEGER NOT NULL, constraints INTEGER NOT NULL,
     FOREIGN KEY(id) REFERENCES bundles(id) ON DELETE CASCADE)].
    Integer columns hold signed 64-bit values. *)
Record metadata_row : Type := {
  md_id : option string;
  md_source : string;
  md_destination : string;
  md_creation_time : Z;
  md_size : Z;
  md_constraints : Z
}.

Record tables : Type := {
  bundles : list bundle_row;
  bundle_metadata : list metadata_row
}.

(** One database connection ([sqlite3*]).
    [transaction] holds the tables as they were at BEGIN while an explicit
    transaction is open; [changes] is the counter read by
    [sqlite3_changes]. *)
Record sqlite3 : Type := {
  db_tables : tables;
  foreign_keys : bool;
  transaction : option tables;
  changes : Z
}.

Definition empty_tables : tables :=
  {| bundles := []; bundle_metadata := [] |}.

Definition set_tables (c : sqlite3) (t : tables) (n : Z) : sqlite3 :=
  {| db_tables := t; foreign_keys := foreign_keys c;
     transaction := transaction c; changes := n |}.

Definition set_changes (c : sqlite3) (n : Z) : sqlite3 :=
  set_tables c (db_tables c) n.

(** The statements csqlite.c passes to [sqlite3_exec]. *)
Inductive exec_sql : Type :=
| PRAGMA_FOREIGN_KEYS_ON
| CREATE_TABLES_SQL
| BEGIN_TRANSACTION
| ROLLBACK
| COMMIT.

(** The statements csqlite.c prepares, named after the C variable that
    holds the text (or after the function, where the variable is called
    [query]). *)
Inductive sql : Type :=
| insert_bundle_sql
| insert_metadata_sql
| get_bundle_query
| get_metadata_query
| update_sql
| delete_sql
| has_bundle_query
| count_bundles_query
| get_all_ids_query
| get_all_metadata_query.

Definition exec_sql_text (q : exec_sql) : string :=
  match q with
  | PRAGMA_FOREIGN_KEYS_ON => "PRAGMA foreign_keys = ON;"
  | CREATE_TABLES_SQL =>
      "CREATE TABLE IF NOT EXISTS bundles (  id TEXT PRIMARY KEY,  data BLOB NOT NULL);CREATE TABLE IF NOT EXISTS bundle_metadata (  id TEXT PRIMARY KEY,  source TEXT NOT NULL,  destination TEXT NOT NULL,  creation_time INTEGER NOT NULL,  size INTEGER NOT NULL,  constraints INTEGER NOT NULL,  FOREIGN KEY(id) REFERENCES bundles(id) ON DELETE CASCADE);"
  | BEGIN_TRANSACTION => "BEGIN TRANSACTION;"
  | ROLLBACK => "ROLLBACK;"
  | COMMIT => "COMMIT;"
  end%string.

Definition sql_text (q : sql) : string :=
  match q with
  | insert_bundle_sql => "INSERT INTO bundles (id, data) VALUES (?, ?);"
  | insert_metadata_sql =>
      "INSERT INTO bundle_metadata (id, source, destination, creation_time, size, constraints) VALUES (?, ?, ?, ?, ?, ?);"
  | get_bundle_query => "SELECT data FROM bundles WHERE id = ?;"
  | get_metadata_query =>
      "SELECT id, source, destination, creation_time, size, constraints FROM bundle_metadata WHERE id = ?;"
  | update_sql =>
      "UPDATE bundle_metadata SET source = ?, destination = ?, creation_time = ?, size = ?, constraints = ? WHERE id = ?;"
  | delete_sql => "DELETE FROM bundles WHERE id = ?;"
  | has_bundle_query => "SELECT 1 FROM bundles WHERE id = ? LIMIT 1;"
  | count_bundles_query => "SELECT COUNT(" ++ String "*"%char ") FROM bundles;"
  | get_all_ids_query => "SELECT id FROM bundles;"
  | get_all_metadata_query =>
      "SELECT id, source, destination, creation_time, size, constraints FROM bundle_metadata;"
  end%string.

(** A prepared statement ([sqlite3_stmt*]): its text, the values bound to
    its parameters (numbered from 1, NULL until bound), the rows the
    cursor has still to deliver ([None] before the first step and after a
    reset) and the row it stands on. *)
Record sqlite3_stmt : Type := {
  stmt_sql : sql;
  stmt_params : nat -> value;
  stmt_pending : option (list (list value));
  stmt_row : list value
}.

(* ----------------------------------------------------------------- *)
(** *** Comparison and decoding of values *)

(** [id = ?] on a TEXT key: NULL compares equal to nothing. *)
Definition key_is (i : string) (k : option string) : bool :=
  match k with
  | Some j => String.eqb j i
  | None => false
  end.

Definition key_matches (v : value) (k : option string) : bool :=
  match v with
  | VText i => key_is i k
  | _ => false
  end.

(** The wrapper binds text (or NULL) to TEXT columns, blobs to the BLOB
    column and integers to INTEGER columns.  A value of another type would
    go through the engine's affinity conversions, which are not modelled:
    the decoders answer [None] and the statement reports
    [SQLITE_MISMATCH]. *)
Definition as_text (v : value) : option (option string) :=
  match v with
  | VNull => Some None
  | VText s => Some (Some s)
  | _ => None
  end.

Definition as_blob (v : value) : option (option (list byte)) :=
  match v with
  | VNull => Some None
  | VBlob b => Some (Some b)
  | _ => None
  end.

Definition as_int (v : value) : option (option Z) :=
  match v with
  | VNull => Some None
  | VInt z => Some (Some z)
  | _ => None
  end.

Definition of_text (k : option string) : value :=
  match k with
  | Some s => VText s
  | None => VNull
  end.

(* ----------------------------------------------------------------- *)
(** *** Writes *)

(** Outcome of running an INSERT, UPDATE or DELETE: the new tables and the
    number of rows the statement changed directly, or a constraint
    failure (the statement is undone), or a value the model does not
    decode. *)
Inductive outcome : Type :=
| Done (t : tables) (n : Z)
| Violated
| Mismatch.

Definition has_bundle_row (i : string) (t : tables) : bool :=
  existsb (fun r => key_is i (bundle_key r)) (bundles t).

Definition has_metadata_row (i : string) (t : tables) : bool :=
  existsb (fun r => key_is i (md_id r)) (bundle_metadata t).

(** [INSERT INTO bundles (id, data) VALUES (?1, ?2)]:
    NOT NULL on [data], uniqueness of a non-NULL [id]. *)
Definition run_insert_bundle (p : nat -> value) (t : tables) : outcome :=
  match as_text (p 1%nat), as_blob (p 2%nat) with
  | Some k, Some d =>
      match d with
      | None => Violated
      | Some b =>
          if match k with Some i => has_bundle_row i t | None => false end
          then Violated
          else Done {| bundles := bundles t ++ [{| bundle_key := k; bundle_blob := b |}];
                       bundle_metadata := bundle_metadata t |} 1
      end
  | _, _ => Mismatch
  end.

(** [INSERT INTO bundle_metadata (...) VALUES (?1, ..., ?6)]:
    NOT NULL on the five data columns, uniqueness of a non-NULL [id], and,
    with foreign keys enforced, a parent row in [bundles] for a non-NULL
    [id].  A row whose child key is NULL needs no parent (SQLite
    documentation, Foreign Key Support, "Introduction to Foreign Key
    Constraints").  The constraint is immediate: it is checked when the
    statement ends, inside a transaction too. *)
Definition run_insert_metadata (fk : bool) (p : nat -> value) (t : tables) : outcome :=
  match as_text (p 1%nat), as_text (p 2%nat), as_text (p 3%nat),
        as_int (p 4%nat), as_int (p 5%nat), as_int (p 6%nat) with
  | Some k, Some s, Some d, Some ct, Some sz, Some cs =>
      match s, d, ct, sz, cs with
      | Some s, Some d, Some ct, Some sz, Some cs =>
          if match k with Some i => has_metadata_row i t | None => false end
          then Violated
          else if match k with
                  | Some i => fk && negb (has_bundle_row i t)
                  | None => false
                  end
          then Violated
          else Done {| bundles := bundles t;
                       bundle_metadata := bundle_metadata t ++
                         [{| md_id := k; md_source := s; md_destination := d;
                             md_creation_time := ct; md_size := sz;
                             md_constraints := cs |}] |} 1
      | _, _, _, _, _ => Violated
      end
  | _, _, _, _, _, _ => Mismatch
  end.

Definition count_matching {A} (f : A -> bool) (l : list A) : Z :=
  Z.of_nat (List.length (filter f l)).

(** [UPDATE bundle_metadata SET source = ?1, destination = ?2,
     creation_time = ?3, size = ?4, constraints = ?5 WHERE id = ?6]:
    every row whose id equals [?6] gets the five values; NOT NULL is
    checked on the rows that are written, so a statement that matches no
    row completes whatever the values are. *)
Definition run_update_metadata (p : nat -> value) (t : tables) : outcome :=
  match as_text (p 1%nat), as_text (p 2%nat),
        as_int (p 3%nat), as_int (p 4%nat), as_int (p 5%nat), as_text (p 6%nat) with
  | Some s, Some d, Some ct, Some sz, Some cs, Some _ =>
      let hit := fun r => key_matches (p 6%nat) (md_id r) in
      let n := count_matching hit (bundle_metadata t) in
      if n =? 0 then Done t 0
      else
        match s, d, ct, sz, cs with
        | Some s, Some d, Some ct, Some sz, Some cs =>
            Done {| bundles := bundles t;
                    bundle_metadata :=
                      map (fun r =>
                             if hit r
                             then {| md_id := md_id r; md_source := s;
                                     md_destination := d; md_creation_time := ct;
                                     md_size := sz; md_constraints := cs |}
                             else r) (bundle_metadata t) |} n
        | _, _, _, _, _ => Violated
        end
  | _, _, _, _, _, _ => Mismatch
  end.

(** [DELETE FROM bundles WHERE id = ?1]: the matching rows go and, with
    foreign keys enforced, so do the [bundle_metadata] rows that refer to
    them (ON DELETE CASCADE).  The counter reports the rows deleted from
    [bundles] only. *)
Definition run_delete_bundle (fk : bool) (p : nat -> value) (t : tables) : outcome :=
  match as_text (p 1%nat) with
  | Some _ =>
      let hit := fun r => key_matches (p 1%nat) (bundle_key r) in
      let n := count_matching hit (bundles t) in
      if n =? 0 then Done t 0
      else
        Done {| bundles := filter (fun r => negb (hit r)) (bundles t);
                bundle_metadata :=
                  if fk
                  then filter (fun r => negb (key_matches (p 1%nat) (md_id r)))
                              (bundle_metadata t)
                  else bundle_metadata t |} n
  | None => Mismatch
  end.

Definition run_write (q : sql) (fk : bool) (p : nat -> value) (t : tables) : outcome :=
  match q with
  | insert_bundle_sql => run_insert_bundle p t
  | insert_metadata_sql => run_insert_metadata fk p t
  | update_sql => run_update_metadata p t
  | delete_sql => run_delete_bundle fk p t
  | _ => Done t 0
  end.

(* ----------------------------------------------------------------- *)
(** *** Queries *)

Definition metadata_values (r : metadata_row) : list value :=
  [of_text (md_id r); VText (md_source r); VText (md_destination r);
   VInt (md_creation_time r); VInt (md_size r); VInt (md_constraints r)].

(** The rows a SELECT yields, in table order. *)
Definition run_query (q : sql) (p : nat -> value) (t : tables) : list (list value) :=
  match q with
  | get_bundle_query =>
      map (fun r => [VBlob (bundle_blob r)])
          (filter (fun r => key_matches (p 1%nat) (bundle_key r)) (bundles t))
  | get_metadata_query =>
      map metadata_values
          (filter (fun r => key_matches (p 1%nat) (md_id r)) (bundle_metadata t))
  | has_bundle_query =>
      firstn 1 (map (fun _ => [VInt 1])
                    (filter (fun r => key_matches (p 1%nat) (bundle_key r)) (bundles t)))
  | count_bundles_query => [[VInt (Z.of_nat (List.length (bundles t)))]]
  | get_all_ids_query => map (fun r => [of_text (bundle_key r)]) (bundles t)
  | get_all_metadata_query => map metadata_values (bundle_metadata t)
  | _ => []
  end.

Definition is_query (q : sql) : bool :=
  match q with
  | insert_bundle_sql | insert_metadata_sql | update_sql | delete_sql => false
  | _ => true
  end.

(* ----------------------------------------------------------------- *)
(** *** The C interface of the engine *)

(** [sqlite3_open]: a new, empty database; foreign keys are off until the
    pragma turns them on. *)
Definition sqlite3_open (path : option string) : rc * sqlite3 :=
  (SQLITE_OK,
   {| db_tables := empty_tables; foreign_keys := false;
      transaction := None; changes := 0 |}).

(** [sqlite3_exec] on the five texts the wrapper uses.  The foreign-key
    pragma does nothing inside a transaction; BEGIN fails inside a
    transaction, ROLLBACK and COMMIT fail outside one. *)
Definition sqlite3_exec (c : sqlite3) (q : exec_sql) : rc * sqlite3 :=
  match q with
  | PRAGMA_FOREIGN_KEYS_ON =>
      match transaction c with
      | Some _ => (SQLITE_OK, c)
      | None => (SQLITE_OK,
                 {| db_tables := db_tables c; foreign_keys := true;
                    transaction := None; changes := changes c |})
      end
  | CREATE_TABLES_SQL => (SQLITE_OK, c)
  | BEGIN_TRANSACTION =>
      match transaction c with
      | Some _ => (SQLITE_ERROR, c)
      | None => (SQLITE_OK,
                 {| db_tables := db_tables c; foreign_keys := foreign_keys c;
                    transaction := Some (db_tables c); changes := changes c |})
      end
  | ROLLBACK =>
      match transaction c with
      | Some t0 => (SQLITE_OK,
                    {| db_tables := t0; foreign_keys := foreign_keys c;
                       transaction := None; changes := changes c |})
      | None => (SQLITE_ERROR, c)
      end
  | COMMIT =>
      match transaction c with
      | Some _ => (SQLITE_OK,
                   {| db_tables := db_tables c; foreign_keys := foreign_keys c;
                      transaction := None; changes := changes c |})
      | None => (SQLITE_ERROR, c)
      end
  end.

Definition sqlite3_prepare_v2 (c : sqlite3) (q : sql) : rc * sqlite3_stmt :=
  (SQLITE_OK,
   {| stmt_sql := q; stmt_params := fun _ => VNull;
      stmt_pending := None; stmt_row := [] |}).

Definition bind (st : sqlite3_stmt) (idx : nat) (v : value) : sqlite3_stmt :=
  {| stmt_sql := stmt_sql st;
     stmt_params := fun k => if Nat.eqb k idx then v else stmt_params st k;
     stmt_pending := stmt_pending st; stmt_row := stmt_row st |}.

(** [sqlite3_bind_text(stmt, idx, text, -1, SQLITE_STATIC)]: the text up to
    its terminator; a null pointer binds NULL. *)
Definition sqlite3_bind_text (st : sqlite3_stmt) (idx : nat) (text : option string)
  : sqlite3_stmt :=
  bind st idx (of_text text).

(** [sqlite3_bind_blob(stmt, idx, data, n, SQLITE_STATIC)]: the first [n]
    bytes at [data].  A null pointer binds NULL; a length above
    [SQLITE_MAX_LENGTH] is refused with SQLITE_TOOBIG and leaves the
    parameter NULL.  The engine leaves a negative [n] undefined: the model
    binds nothing there (the parameter stays NULL), and the properties
    below are stated for lengths that are not negative as an [int]. *)
Definition blob_value (data : option (list byte)) (n : Z) : value :=
  match data with
  | None => VNull
  | Some d =>
      if n <? 0 then VNull
      else if SQLITE_MAX_LENGTH <? n then VNull
      else VBlob (firstn (Z.to_nat n) d)
  end.

Definition sqlite3_bind_blob (st : sqlite3_stmt) (idx : nat)
           (data : option (list byte)) (n : Z) : sqlite3_stmt :=
  bind st idx (blob_value data n).

Definition sqlite3_bind_int64 (st : sqlite3_stmt) (idx : nat) (z : Z) : sqlite3_stmt :=
  bind st idx (VInt z).

Definition sqlite3_bind_int (st : sqlite3_stmt) (idx : nat) (z : Z) : sqlite3_stmt :=
  bind st idx (VInt z).

(** The rows the cursor of a query has still to deliver. *)
Definition sqlite3_rows (st : sqlite3_stmt) (c : sqlite3) : list (list value) :=
  match stmt_pending st with
  | Some rs => rs
  | None => run_query (stmt_sql st) (stmt_params st) (db_tables c)
  end.

(** [sqlite3_step].  A query moves its cursor to the next row
    (SQLITE_ROW) or finds none left (SQLITE_DONE, and the statement starts
    over on the next step).  A write runs to completion: SQLITE_DONE with
    the change counter set to the rows the statement itself inserted,
    updated or deleted (rows removed by a cascade are not counted), or a
    failure that undoes the statement and clears the counter.  With
    [sqlite3_prepare_v2] and extended result codes off, every constraint
    failure is reported as SQLITE_CONSTRAINT. *)
Definition sqlite3_step (st : sqlite3_stmt) (c : sqlite3) : rc * sqlite3_stmt * sqlite3 :=
  if is_query (stmt_sql st) then
    match sqlite3_rows st c with
    | [] =>
        (SQLITE_DONE,
         {| stmt_sql := stmt_sql st; stmt_params := stmt_params st;
            stmt_pending := None; stmt_row := [] |}, c)
    | r :: rs =>
        (SQLITE_ROW,
         {| stmt_sql := stmt_sql st; stmt_params := stmt_params st;
            stmt_pending := Some rs; stmt_row := r |}, c)
    end
  else
    match run_write (stmt_sql st) (foreign_keys c) (stmt_params st) (db_tables c) with
    | Done t n => (SQLITE_DONE, st, set_tables c t n)
    | Violated => (SQLITE_CONSTRAINT, st, set_changes c 0)
    | Mismatch => (SQLITE_MISMATCH, st, set_changes c 0)
    end.

Definition sqlite3_reset (st : sqlite3_stmt) : sqlite3_stmt :=
  {| stmt_sql := stmt_sql st; stmt_params := stmt_params st;
     stmt_pending := None; stmt_row := [] |}.

Definition sqlite3_changes (c : sqlite3) : Z := changes c.

(** Column accessors on the current row. *)
Definition column (st : sqlite3_stmt) (i : nat) : value :=
  nth i (stmt_row st) VNull.

(** [sqlite3_column_blob]: null for NULL and for a zero-length blob. *)
Definition sqlite3_column_blob (st : sqlite3_stmt) (i : nat) : option (list byte) :=
  match column st i with
  | VBlob [] => None
  | VBlob b => Some b
  | _ => None
  end.

Definition sqlite3_column_bytes (st : sqlite3_stmt) (i : nat) : Z :=
  match column st i with
  | VBlob b => Z.of_nat (List.length b)
  | _ => 0
  end.

Definition sqlite3_column_text (st : sqlite3_stmt) (i : nat) : option string :=
  match column st i with
  | VText s => Some s
  | _ => None
  end.

Definition sqlite3_column_int64 (st : sqlite3_stmt) (i : nat) : Z :=
  match column st i with
  | VInt z => z
  | _ => 0
  end.

Definition sqlite3_column_int (st : sqlite3_stmt) (i : nat) : Z :=
  CInt.to_int (sqlite3_column_int64 st i).

End Sqlite.

(* ================================================================= *)
(** ** The wrapper: csqlite.h and csqlite.c *)

Module CSQLite.

Import Sqlite.

(** [CSQLiteResult] (csqlite.h). *)
Inductive CSQLiteResult : Type :=
| CSQLITE_OK
| CSQLITE_ERROR
| CSQLITE_NOT_FOUND
| CSQLITE_CONSTRAINT.

Definition CSQLiteResult_code (r : CSQLiteResult) : Z :=
  match r with
  | CSQLITE_OK => 0
  | CSQLITE_ERROR => 1
  | CSQLITE_NOT_FOUND => 2
  | CSQLITE_CONSTRAINT => 3
  end.

(** A pointer argument: [None] is the null pointer. *)
Definition ptr (A : Type) : Type := option A.

(** [*p = v] under the guard [if (p)]. *)
Definition assign {A} (p : ptr A) (v : A) : ptr A :=
  match p with
  | Some _ => Some v
  | None => None
  end.

(** [CSQLiteBundleMetadata] (csqlite.h): three C strings,
    two [uint64_t] and an [int]. *)
Record CSQLiteBundleMetadata : Type := {
  meta_id : ptr string;
  meta_source : ptr string;
  meta_destination : ptr string;
  meta_creation_time : Z;
  meta_size : Z;
  meta_constraints : Z
}.

(** [struct CSQLiteDB { sqlite3* db; }]: the handle is the connection. *)
Definition CSQLiteDB : Type := sqlite3.

Definition sizeof_CSQLiteDB : Z := CInt.sizeof_ptr.

Section Wrapper.

(** The allocator of the C library: [malloc n = true] when a request of
    [n] bytes yields a non-null pointer. *)
Variable malloc : Z -> bool.

Definition csqlite_strdup (str : ptr string) : ptr string :=
  match str with
  | None => None
  | Some s =>
      let len := CInt.to_size_t (Z.of_nat (String.length s) + 1) in
      if malloc len then Some s else None
  end.

(** [memcpy(dst, src, n)] into a fresh buffer of [n] bytes. *)
Definition memcpy (src : ptr (list byte)) (n : Z) : list byte :=
  firstn (Z.to_nat n) (match src with Some b => b | None => [] end).

Definition csqlite_open (path : ptr string) (result : ptr CSQLiteResult)
  : ptr CSQLiteDB * ptr CSQLiteResult :=
  if negb (malloc sizeof_CSQLiteDB) then (None, assign result CSQLITE_ERROR)
  else
    let '(rc, c) := sqlite3_open path in
    if negb (rc_eqb rc SQLITE_OK) then (None, assign result CSQLITE_ERROR)
    else
      (* Enable foreign keys *)
      let '(_, c) := sqlite3_exec c PRAGMA_FOREIGN_KEYS_ON in
      (* Create tables *)
      let '(rc, c) := sqlite3_exec c CREATE_TABLES_SQL in
      if negb (rc_eqb rc SQLITE_OK) then (None, assign result CSQLITE_ERROR)
      else (Some c, assign result CSQLITE_OK).

Definition csqlite_close (db : ptr CSQLiteDB) : ptr CSQLiteDB := None.

Definition csqlite_store_bundle (db : ptr CSQLiteDB) (bundle_id : ptr string)
           (bundle_data : ptr (list byte)) (bundle_size : Z)
           (metadata : ptr CSQLiteBundleMetadata)
  : CSQLiteResult * ptr CSQLiteDB :=
  match db, bundle_id, bundle_data, metadata with
  | Some c, Some _, Some _, Some m =>
      (* Begin transaction *)
      let '(rc, c) := sqlite3_exec c BEGIN_TRANSACTION in
      if negb (rc_eqb rc SQLITE_OK) then (CSQLITE_ERROR, Some c)
      else
        (* Insert bundle data *)
        let '(rc, stmt) := sqlite3_prepare_v2 c insert_bundle_sql in
        if negb (rc_eqb rc SQLITE_OK)
        then (CSQLITE_ERROR, Some (snd (sqlite3_exec c ROLLBACK)))
        else
          let stmt := sqlite3_bind_text stmt 1 bundle_id in
          let stmt := sqlite3_bind_blob stmt 2 bundle_data (CInt.to_int bundle_size) in
          let '(rc, _, c) := sqlite3_step stmt c in
          if negb (rc_eqb rc SQLITE_DONE)
          then (if rc_eqb rc SQLITE_CONSTRAINT then CSQLITE_CONSTRAINT else CSQLITE_ERROR,
                Some (snd (sqlite3_exec c ROLLBACK)))
          else
            (* Insert metadata *)
            let '(rc, stmt) := sqlite3_prepare_v2 c insert_metadata_sql in
            if negb (rc_eqb rc SQLITE_OK)
            then (CSQLITE_ERROR, Some (snd (sqlite3_exec c ROLLBACK)))
            else
              let stmt := sqlite3_bind_text stmt 1 (meta_id m) in
              let stmt := sqlite3_bind_text stmt 2 (meta_source m) in
              let stmt := sqlite3_bind_text stmt 3 (meta_destination m) in
              let stmt := sqlite3_bind_int64 stmt 4 (CInt.to_int64 (meta_creation_time m)) in
              let stmt := sqlite3_bind_int64 stmt 5 (CInt.to_int64 (meta_size m)) in
              let stmt := sqlite3_bind_int stmt 6 (meta_constraints m) in
              let '(rc, _, c) := sqlite3_step stmt c in
              if negb (rc_eqb rc SQLITE_DONE)
              then (CSQLITE_ERROR, Some (snd (sqlite3_exec c ROLLBACK)))
              else
                (* Commit transaction *)
                let '(rc, c) := sqlite3_exec c COMMIT in
                (if rc_eqb rc SQLITE_OK then CSQLITE_OK else CSQLITE_ERROR, Some c)
  | _, _, _, _ => (CSQLITE_ERROR, db)
  end.

(** Result of [csqlite_get_bundle]: the code, the cells behind the two
    output pointers, and the handle. *)
Definition csqlite_get_bundle (db : ptr CSQLiteDB) (bundle_id : ptr string)
           (bundle_data : ptr (ptr (list byte))) (bundle_size : ptr Z)
  : CSQLiteResult * ptr (ptr (list byte)) * ptr Z * ptr CSQLiteDB :=
  match db, bundle_id, bundle_data, bundle_size with
  | Some c, Some _, Some _, Some _ =>
      let '(rc, stmt) := sqlite3_prepare_v2 c get_bundle_query in
      if negb (rc_eqb rc SQLITE_OK) then (CSQLITE_ERROR, bundle_data, bundle_size, db)
      else
        let stmt := sqlite3_bind_text stmt 1 bundle_id in
        let '(rc, stmt, c) := sqlite3_step stmt c in
        if rc_eqb rc SQLITE_ROW then
          let blob := sqlite3_column_blob stmt 0 in
          let blob_size := sqlite3_column_bytes stmt 0 in
          if malloc (CInt.to_size_t blob_size)
          then (CSQLITE_OK, Some (Some (memcpy blob blob_size)),
                Some (CInt.to_size_t blob_size), Some c)
          else
            (* the null result of malloc has been stored through bundle_data *)
            (if rc_eqb rc SQLITE_DONE then CSQLITE_NOT_FOUND else CSQLITE_ERROR,
             Some None, bundle_size, Some c)
        else
          (if rc_eqb rc SQLITE_DONE then CSQLITE_NOT_FOUND else CSQLITE_ERROR,
           bundle_data, bundle_size, Some c)
  | _, _, _, _ => (CSQLITE_ERROR, bundle_data, bundle_size, db)
  end.

(** The record the wrapper fills from the current row of a metadata
    query. *)
Definition read_metadata (stmt : sqlite3_stmt) : CSQLiteBundleMetadata :=
  {| meta_id := csqlite_strdup (sqlite3_column_text stmt 0);
     meta_source := csqlite_strdup (sqlite3_column_text stmt 1);
     meta_destination := csqlite_strdup (sqlite3_column_text stmt 2);
     meta_creation_time := CInt.to_uint64 (sqlite3_column_int64 stmt 3);
     meta_size := CInt.to_uint64 (sqlite3_column_int64 stmt 4);
     meta_constraints := sqlite3_column_int stmt 5 |}.

Definition csqlite_get_metadata (db : ptr CSQLiteDB) (bundle_id : ptr string)
           (metadata : ptr CSQLiteBundleMetadata)
  : CSQLiteResult * ptr CSQLiteBundleMetadata * ptr CSQLiteDB :=
  match db, bundle_id, metadata with
  | Some c, Some _, Some _ =>
      let '(rc, stmt) := sqlite3_prepare_v2 c get_metadata_query in
      if negb (rc_eqb rc SQLITE_OK) then (CSQLITE_ERROR, metadata, db)
      else
        let stmt := sqlite3_bind_text stmt 1 bundle_id in
        let '(rc, stmt, c) := sqlite3_step stmt c in
        if rc_eqb rc SQLITE_ROW
        then (CSQLITE_OK, Some (read_metadata stmt), Some c)
        else (if rc_eqb rc SQLITE_DONE then CSQLITE_NOT_FOUND else CSQLITE_ERROR,
              metadata, Some c)
  | _, _, _ => (CSQLITE_ERROR, metadata, db)
  end.

Definition csqlite_update_metadata (db : ptr CSQLiteDB)
           (metadata : ptr CSQLiteBundleMetadata)
  : CSQLiteResult * ptr CSQLiteDB :=
  match db, metadata with
  | Some c, Some m =>
      match meta_id m with
      | None => (CSQLITE_ERROR, db)
      | Some _ =>
          let '(rc, stmt) := sqlite3_prepare_v2 c update_sql in
          if negb (rc_eqb rc SQLITE_OK) then (CSQLITE_ERROR, db)
          else
            let stmt := sqlite3_bind_text stmt 1 (meta_source m) in
            let stmt := sqlite3_bind_text stmt 2 (meta_destination m) in
            let stmt := sqlite3_bind_int64 stmt 3 (CInt.to_int64 (meta_creation_time m)) in
            let stmt := sqlite3_bind_int64 stmt 4 (CInt.to_int64 (meta_size m)) in
            let stmt := sqlite3_bind_int stmt 5 (meta_constraints m) in
            let stmt := sqlite3_bind_text stmt 6 (meta_id m) in
            let '(rc, _, c) := sqlite3_step stmt c in
            if negb (rc_eqb rc SQLITE_DONE) then (CSQLITE_ERROR, Some c)
            else (if 0 <? sqlite3_changes c then CSQLITE_OK else CSQLITE_NOT_FOUND,
                  Some c)
      end
  | _, _ => (CSQLITE_ERROR, db)
  end.

Definition csqlite_remove_bundle (db : ptr CSQLiteDB) (bundle_id : ptr string)
  : CSQLiteResult * ptr CSQLiteDB :=
  match db, bundle_id with
  | Some c, Some _ =>
      let '(rc, stmt) := sqlite3_prepare_v2 c delete_sql in
      if negb (rc_eqb rc SQLITE_OK) then (CSQLITE_ERROR, db)
      else
        let stmt := sqlite3_bind_text stmt 1 bundle_id in
        let '(rc, _, c) := sqlite3_step stmt c in
        if negb (rc_eqb rc SQLITE_DONE) then (CSQLITE_ERROR, Some c)
        else (if 0 <? sqlite3_changes c then CSQLITE_OK else CSQLITE_NOT_FOUND,
              Some c)
  | _, _ => (CSQLITE_ERROR, db)
  end.

Definition csqlite_has_bundle (db : ptr CSQLiteDB) (bundle_id : ptr string)
           (exists_ : ptr bool)
  : CSQLiteResult * ptr bool * ptr CSQLiteDB :=
  match db, bundle_id, exists_ with
  | Some c, Some _, Some _ =>
      let '(rc, stmt) := sqlite3_prepare_v2 c has_bundle_query in
      if negb (rc_eqb rc SQLITE_OK) then (CSQLITE_ERROR, exists_, db)
      else
        let stmt := sqlite3_bind_text stmt 1 bundle_id in
        let '(rc, _, c) := sqlite3_step stmt c in
        (CSQLITE_OK, Some (rc_eqb rc SQLITE_ROW), Some c)
  | _, _, _ => (CSQLITE_ERROR, exists_, db)
  end.

Definition csqlite_count_bundles (db : ptr CSQLiteDB) : Z * ptr CSQLiteDB :=
  match db with
  | Some c =>
      let '(rc, stmt) := sqlite3_prepare_v2 c count_bundles_query in
      if negb (rc_eqb rc SQLITE_OK) then (0, db)
      else
        let '(rc, stmt, c) := sqlite3_step stmt c in
        let count := 0 in
        let count :=
          if rc_eqb rc SQLITE_ROW
          then CInt.to_uint64 (sqlite3_column_int64 stmt 0)
          else count in
        (count, Some c)
  | None => (0, db)
  end.

(** The statement as [sqlite3_step] leaves it on row [r] with [rest] still
    to come. *)
Definition on_row (st : sqlite3_stmt) (r : list value) (rest : list (list value))
  : sqlite3_stmt :=
  {| stmt_sql := stmt_sql st; stmt_params := stmt_params st;
     stmt_pending := Some rest; stmt_row := r |}.

(** [while (sqlite3_step(stmt) == SQLITE_ROW) n++;]
    over the rows the cursor delivers. *)
Fixpoint count_rows (rows : list (list value)) (n : Z) : Z :=
  match rows with
  | [] => n
  | _ :: rest => count_rows rest (CInt.to_size_t (n + 1))
  end.

(** [while (sqlite3_step(stmt) == SQLITE_ROW && i < n) { ids[i] = ...; i++; }]
    The array cells are written in index order from 0, so the array is
    the list of the values written. *)
Fixpoint fetch_ids (st : sqlite3_stmt) (rows : list (list value)) (n i : Z)
         (ids : list (ptr string)) : list (ptr string) * Z :=
  match rows with
  | [] => (ids, i)
  | r :: rest =>
      if i <? n
      then fetch_ids st rest n (CInt.to_size_t (i + 1))
                     (ids ++ [csqlite_strdup (sqlite3_column_text (on_row st r rest) 0)])
      else (ids, i)
  end.

Definition csqlite_get_all_ids (db : ptr CSQLiteDB)
           (ids : ptr (ptr (list (ptr string)))) (count : ptr Z)
  : CSQLiteResult * ptr (ptr (list (ptr string))) * ptr Z * ptr CSQLiteDB :=
  match db, ids, count with
  | Some c, Some _, Some _ =>
      let '(rc, stmt) := sqlite3_prepare_v2 c get_all_ids_query in
      if negb (rc_eqb rc SQLITE_OK) then (CSQLITE_ERROR, ids, count, db)
      else
        (* Count results first *)
        let n := count_rows (sqlite3_rows stmt c) 0 in
        if n =? 0 then (CSQLITE_OK, Some None, Some 0, db)
        else
          (* Allocate array *)
          if negb (malloc (CInt.to_size_t (n * CInt.sizeof_ptr)))
          then (CSQLITE_ERROR, Some None, count, db)
          else
            (* Reset and fetch *)
            let stmt := sqlite3_reset stmt in
            let '(arr, i) := fetch_ids stmt (sqlite3_rows stmt c) n 0 [] in
            (CSQLITE_OK, Some (Some arr), Some i, db)
  | _, _, _ => (CSQLITE_ERROR, ids, count, db)
  end.

Fixpoint fetch_metadata (st : sqlite3_stmt) (rows : list (list value)) (n i : Z)
         (arr : list CSQLiteBundleMetadata) : list CSQLiteBundleMetadata * Z :=
  match rows with
  | [] => (arr, i)
  | r :: rest =>
      if i <? n
      then fetch_metadata st rest n (CInt.to_size_t (i + 1))
                          (arr ++ [read_metadata (on_row st r rest)])
      else (arr, i)
  end.

Definition csqlite_get_all_metadata (db : ptr CSQLiteDB)
           (metadata : ptr (ptr (list CSQLiteBundleMetadata))) (count : ptr Z)
  : CSQLiteResult * ptr (ptr (list CSQLiteBundleMetadata)) * ptr Z * ptr CSQLiteDB :=
  match db, metadata, count with
  | Some c, Some _, Some _ =>
      let '(rc, stmt) := sqlite3_prepare_v2 c get_all_metadata_query in
      if negb (rc_eqb rc SQLITE_OK) then (CSQLITE_ERROR, metadata, count, db)
      else
        (* Count results first *)
        let n := count_rows (sqlite3_rows stmt c) 0 in
        if n =? 0 then (CSQLITE_OK, Some None, Some 0, db)
        else
          (* Allocate array *)
          if negb (malloc (CInt.to_size_t (n * CInt.sizeof_CSQLiteBundleMetadata)))
          then (CSQLITE_ERROR, Some None, count, db)
          else
            (* Reset and fetch *)
            let stmt := sqlite3_reset stmt in
            let '(arr, i) := fetch_metadata stmt (sqlite3_rows stmt c) n 0 [] in
            (CSQLITE_OK, Some (Some arr), Some i, db)
  | _, _, _ => (CSQLITE_ERROR, metadata, count, db)
  end.

End Wrapper.

End CSQLite.

(* ================================================================= *)
(** ** Vocabulary of the properties *)

Module Store.

Import Sqlite CSQLite.

(** The integer fields of a metadata record lie in their C types
    ([uint64_t], [uint64_t], [int]). *)
Definition in_range (m : CSQLiteBundleMetadata) : Prop :=
  CInt.is_uint64 (meta_creation_time m) /\
  CInt.is_uint64 (meta_size m) /\
  CInt.is_int (meta_constraints m).

(** [csqlite_strdup] finds memory for a copy of [s]. *)
Definition strdup_ok (malloc : Z -> bool) (s : string) : Prop :=
  malloc (CInt.to_size_t (Z.of_nat (String.length s) + 1)) = true.

(** The row [csqlite_store_bundle] and [csqlite_update_metadata] write for
    a record whose strings are [s] and [d]. *)
Definition row_of (k : option string) (s d : string) (m : CSQLiteBundleMetadata)
  : metadata_row :=
  {| md_id := k; md_source := s; md_destination := d;
     md_creation_time := CInt.to_int64 (meta_creation_time m);
     md_size := CInt.to_int64 (meta_size m);
     md_constraints := meta_constraints m |}.

(** The connection after a call that leaves no transaction open, with
    tables [t] and change counter [n]. *)
Definition committed (c : CSQLiteDB) (t : tables) (n : Z) : CSQLiteDB :=
  {| db_tables := t; foreign_keys := foreign_keys c;
     transaction := None; changes := n |}.

(** The tables of [c] with one more bundle and one more metadata row. *)
Definition stored (c : CSQLiteDB) (i : string) (b : list byte) (r : metadata_row)
  : tables :=
  {| bundles := bundles (db_tables c) ++ [{| bundle_key := Some i; bundle_blob := b |}];
     bundle_metadata := bundle_metadata (db_tables c) ++ [r] |}.

(** The first row with a given id. *)
Definition find_bundle (i : string) (t : tables) : option bundle_row :=
  find (fun r => key_is i (bundle_key r)) (bundles t).

Definition find_metadata (i : string) (t : tables) : option metadata_row :=
  find (fun r => key_is i (md_id r)) (bundle_metadata t).

(** The record [csqlite_get_metadata] returns for a row. *)
Definition record_of (malloc : Z -> bool) (r : metadata_row) : CSQLiteBundleMetadata :=
  {| meta_id := csqlite_strdup malloc (md_id r);
     meta_source := csqlite_strdup malloc (Some (md_source r));
     meta_destination := csqlite_strdup malloc (Some (md_destination r));
     meta_creation_time := CInt.to_uint64 (md_creation_time r);
     meta_size := CInt.to_uint64 (md_size r);
     meta_constraints := CInt.to_int (md_constraints r) |}.

(** The tables after the five data columns of the rows with id [i] are
    overwritten from [m]. *)
Definition updated (t : tables) (i : string) (s d : string) (m : CSQLiteBundleMetadata)
  : tables :=
  {| bundles := bundles t;
     bundle_metadata :=
       map (fun r => if key_is i (md_id r) then row_of (md_id r) s d m else r)
           (bundle_metadata t) |}.

(** The tables after the bundle [i] is deleted, with or without the
    cascade to its metadata. *)
Definition removed (fk : bool) (t : tables) (i : string) : tables :=
  {| bundles := filter (fun r => negb (key_is i (bundle_key r))) (bundles t);
     bundle_metadata :=
       if fk
       then filter (fun r => negb (key_is i (md_id r))) (bundle_metadata t)
       else bundle_metadata t |}.

(** The connection [csqlite_open] hands out. *)
Definition opened : CSQLiteDB :=
  {| db_tables := empty_tables; foreign_keys := true;
     transaction := None; changes := 0 |}.

(** The public operations that write.  The six queries return the handle
    as they found it and add no state. *)
Inductive call : Type :=
| StoreBundle (bundle_id : ptr string) (bundle_data : ptr (list byte))
              (bundle_size : Z) (metadata : ptr CSQLiteBundleMetadata)
| UpdateMetadata (metadata : ptr CSQLiteBundleMetadata)
| RemoveBundle (bundle_id : ptr string).

Definition run (db : ptr CSQLiteDB) (k : call) : ptr CSQLiteDB :=
  match k with
  | StoreBundle bundle_id bundle_data bundle_size metadata =>
      snd (csqlite_store_bundle db bundle_id bundle_data bundle_size metadata)
  | UpdateMetadata metadata => snd (csqlite_update_metadata db metadata)
  | RemoveBundle bundle_id => snd (csqlite_remove_bundle db bundle_id)
  end.

(** States of a store opened by [csqlite_open] and driven by calls that
    satisfy [allowed]. *)
Inductive reachable_by (allowed : call -> Prop) : CSQLiteDB -> Prop :=
| reach_open malloc path result c :
    fst (csqlite_open malloc path result) = Some c ->
    reachable_by allowed c
| reach_call c k c' :
    reachable_by allowed c ->
    allowed k ->
    run (Some c) k = Some c' ->
    reachable_by allowed c'.

Definition reachable : CSQLiteDB -> Prop := reachable_by (fun _ => True).

(** A call to [csqlite_store_bundle] passes a metadata record whose [id]
    is a string (not the null pointer). *)
Definition metadata_id_given (k : call) : Prop :=
  match k with
  | StoreBundle _ _ _ (Some m) => meta_id m <> None
  | _ => True
  end.

(** A [bundle_metadata] row with id [i] exists exactly when a [bundles]
    row with id [i] does. *)
Definition referential (c : CSQLiteDB) : Prop :=
  forall i : string,
    has_metadata_row i (db_tables c) = has_bundle_row i (db_tables c).



(** The UPDATE statement as [csqlite_update_metadata] prepares and binds
    it. *)
Definition update_stmt (c : CSQLiteDB) (m : CSQLiteBundleMetadata) : sqlite3_stmt :=
  let stmt := snd (sqlite3_prepare_v2 c update_sql) in
  let stmt := sqlite3_bind_text stmt 1 (meta_source m) in
  let stmt := sqlite3_bind_text stmt 2 (meta_destination m) in
  let stmt := sqlite3_bind_int64 stmt 3 (CInt.to_int64 (meta_creation_time m)) in
  let stmt := sqlite3_bind_int64 stmt 4 (CInt.to_int64 (meta_size m)) in
  let stmt := sqlite3_bind_int stmt 5 (meta_constraints m) in
  sqlite3_bind_text stmt 6 (meta_id m).

(** The DELETE statement as [csqlite_remove_bundle] prepares and binds
    it. *)
Definition delete_stmt (c : CSQLiteDB) (bundle_id : ptr string) : sqlite3_stmt :=
  sqlite3_bind_text (snd (sqlite3_prepare_v2 c delete_sql)) 1 bundle_id.

(** An allocator that never fails, and one that answers a zero-byte
    request with the null pointer (both conform to ISO C). *)
Definition malloc_always : Z -> bool := fun _ => true.
Definition malloc_null_on_zero : Z -> bool := fun n => negb (n =? 0).


Definition sample_metadata (k : ptr string) : CSQLiteBundleMetadata :=
  {| meta_id := k; meta_source := Some "A"%string;
     meta_destination := Some "B"%string;
     meta_creation_time := 1000; meta_size := 3; meta_constraints := 0 |}.

(** The store after bundle b1 of the scenario of the specification
    (payload 01 02 03, source A, destination B, creation time 1000,
    size 3, constraints 0) has been stored in a new database. *)
Definition b1 : string := "b1".
Definition payload_b1 : list byte := [x01; x02; x03].
Definition store_b1 : CSQLiteDB :=
  committed opened
            (stored opened b1 payload_b1
                    (row_of (Some b1) "A" "B" (sample_metadata (Some b1)))) 1.

(** An allocator that finds memory for every request. *)
Definition malloc_succeeds (malloc : Z -> bool) : Prop :=
  forall n, malloc n = true.

(** An allocator that finds memory for none. *)
Definition malloc_never : Z -> bool := fun _ => false.

(** The ids of the two tables, in table order. *)
Definition bundle_ids (c : CSQLiteDB) : list (option string) :=
  map bundle_key (bundles (db_tables c)).


(** No two bundles share an id and no bundle has a NULL id. *)
Definition unique_ids (c : CSQLiteDB) : Prop :=
  NoDup (bundle_ids c) /\ Forall (fun k => k <> None) (bundle_ids c).


(** The value an INTEGER column holds for a [uint64_t] bound through
    [sqlite3_bind_int64]. *)
Definition stored_uint64 (z : Z) : Z :=
  if z <? 2 ^ 63 then z else z - 2 ^ 64.

(** The entries of an array a list operation returned: none behind the
    null pointer. *)
Definition listed {A} (arr : ptr (list A)) : list A :=
  match arr with
  | Some l => l
  | None => []
  end.


(** Sample data of the further properties: the store after b1 has been
    removed again, a record without source, and a record whose creation
    time is 2^63. *)
Definition removed_b1 : CSQLiteDB :=
  {| db_tables := empty_tables; foreign_keys := true;
     transaction := None; changes := 1 |}.

Definition no_source_metadata : CSQLiteBundleMetadata :=
  {| meta_id := Some b1; meta_source := None;
     meta_destination := Some "B"%string;
     meta_creation_time := 1000; meta_size := 3; meta_constraints := 0 |}.

Definition late_metadata : CSQLiteBundleMetadata :=
  {| meta_id := Some b1; meta_source := Some "A"%string;
     meta_destination := Some "B"%string;
     meta_creation_time := 9223372036854775808; meta_size := 3;
     meta_constraints := 0 |}.

Definition store_late : CSQLiteDB :=
  committed opened
            (stored opened b1 payload_b1 (row_of (Some b1) "A" "B" late_metadata)) 1.

End Store.


(* ================================================================= *)
(** ** Properties *)

Import Sqlite CSQLite Store.

(* ----------------------------------------------------------------- *)
(** *** Integer conversions *)



Lemma to_size_t_id (z : Z) : 0 <= z <= CInt.UINT64_MAX -> CInt.to_size_t z = z.
Proof.
  unfold CInt.to_size_t, CInt.UINT64_MAX. intros H. apply Z.mod_small. lia.
Qed.

(** The narrowing at [(int)bundle_size] loses a length of 2^32. *)
Lemma to_int_wraps : CInt.to_int 4294967296 = 0.
Proof. reflexivity. Qed.

(* ----------------------------------------------------------------- *)
(** *** Keys *)

Lemma key_is_refl (i : string) : key_is i (Some i) = true.
Proof. simpl. apply String.eqb_refl. Qed.

Lemma key_is_true (i : string) (k : option string) :
  key_is i k = true <-> k = Some i.
Proof.
  destruct k as [j |]; simpl.
  - rewrite String.eqb_eq. split; congruence.
  - split; congruence.
Qed.

Lemma key_is_other (i j : string) (k : option string) :
  i <> j -> key_is i k = true -> key_is j k = false.
Proof.
  intros Hij Hi. apply key_is_true in Hi. subst k. simpl.
  apply String.eqb_neq. exact Hij.
Qed.

(* ----------------------------------------------------------------- *)
(** *** Lists of rows *)

Section Rows.

Context {A : Type} (f : A -> bool).

Lemma find_filter (l : list A) : hd_error (filter f l) = find f l.
Proof.
  induction l as [| a l IH]; simpl; [reflexivity |].
  destruct (f a); [reflexivity | exact IH].
Qed.

Lemma find_none_existsb (l : list A) : find f l = None <-> existsb f l = false.
Proof.
  induction l as [| a l IH]; simpl; [tauto |].
  destruct (f a); simpl; [split; discriminate | exact IH].
Qed.

Lemma count_matching_zero (l : list A) :
  (count_matching f l =? 0) = negb (existsb f l).
Proof.
  unfold count_matching.
  induction l as [| a l IH]; simpl; [reflexivity |].
  destruct (f a); simpl; [reflexivity | exact IH].
Qed.

Lemma count_matching_pos (l : list A) :
  (0 <? count_matching f l) = existsb f l.
Proof.
  unfold count_matching.
  induction l as [| a l IH]; simpl; [reflexivity |].
  destruct (f a); simpl; [reflexivity | exact IH].
Qed.

Lemma find_app_fresh (l : list A) (a : A) :
  existsb f l = false -> f a = true -> find f (l ++ [a]) = Some a.
Proof.
  induction l as [| b l IH]; simpl; intros Hl Ha.
  - rewrite Ha. reflexivity.
  - apply orb_false_iff in Hl as [Hb Hl]. rewrite Hb. auto.
Qed.

Lemma existsb_filter_out (l : list A) :
  existsb f (filter (fun a => negb (f a)) l) = false.
Proof.
  induction l as [| a l IH]; simpl; [reflexivity |].
  destruct (f a) eqn:Ha; simpl; [exact IH |].
  rewrite Ha. exact IH.
Qed.

Lemma existsb_filter_other (g : A -> bool) (l : list A) :
  (forall a, f a = true -> g a = false) ->
  existsb f (filter (fun a => negb (g a)) l) = existsb f l.
Proof.
  intros H. induction l as [| a l IH]; simpl; [reflexivity |].
  destruct (g a) eqn:Hg; simpl.
  - destruct (f a) eqn:Hf.
    + apply H in Hf. congruence.
    + exact IH.
  - rewrite IH. reflexivity.
Qed.

End Rows.

(** Case analysis on the innermost scrutinee of the goal. *)
Ltac split_match :=
  match goal with
  | |- context [match ?x with _ => _ end] =>
      lazymatch x with
      | context [match _ with _ => _ end] => fail
      | _ => destruct x eqn:?
      end
  end.

(* ----------------------------------------------------------------- *)
(** *** What each operation of the wrapper computes *)

Lemma csqlite_open_opened malloc path result (c : CSQLiteDB) :
  fst (csqlite_open malloc path result) = Some c -> c = opened.
Proof.
  unfold csqlite_open. destruct (malloc sizeof_CSQLiteDB); simpl; intros H.
  - injection H as <-. reflexivity.
  - discriminate.
Qed.


(** [csqlite_store_bundle] outside a transaction either commits both rows
    or leaves the tables as they were. *)
Lemma store_cases (c : CSQLiteDB) i p n m :
  transaction c = None ->
  (exists s d,
     csqlite_store_bundle (Some c) (Some i) (Some p) n (Some m) =
       (CSQLITE_OK,
        Some (committed c (stored c i (firstn (Z.to_nat (CInt.to_int n)) p)
                                  (row_of (meta_id m) s d m)) 1)) /\
     0 <= CInt.to_int n <= SQLITE_MAX_LENGTH /\
     has_bundle_row i (db_tables c) = false /\
     meta_source m = Some s /\ meta_destination m = Some d /\
     match meta_id m with
     | Some j => has_metadata_row j (db_tables c) = false /\
                 (foreign_keys c = true -> j <> i ->
                  has_bundle_row j (db_tables c) = true)
     | None => True
     end)
  \/ (fst (csqlite_store_bundle (Some c) (Some i) (Some p) n (Some m)) <> CSQLITE_OK /\
      exists k, snd (csqlite_store_bundle (Some c) (Some i) (Some p) n (Some m))
                = Some (committed c (db_tables c) k)).
Proof.
  intros Ht.
  destruct m as [[j |] [s |] [d |] ct sz cs];
  unfold csqlite_store_bundle, sqlite3_bind_blob, blob_value, sqlite3_step, run_write,
    run_insert_bundle, run_insert_metadata, row_of, committed, stored;
  cbn; rewrite Ht; cbn;
  repeat (split_match; cbn; try (right; split; [discriminate | eexists; reflexivity])).
  all: left; exists s, d; repeat split; try reflexivity; try lia.
  - assumption.
  - intros Hfk Hji.
    match goal with
    | H : _ && _ = false |- _ =>
        rewrite Hfk in H; simpl in H;
        apply negb_false_iff in H; rewrite existsb_app in H; simpl in H
    end.
    unfold has_bundle_row.
    destruct (existsb _ (bundles (db_tables c))); [reflexivity |].
    simpl in *. rewrite orb_false_r in *.
    match goal with H : String.eqb _ _ = true |- _ => apply String.eqb_eq in H end.
    congruence.
Qed.

(** Inside a transaction BEGIN fails and nothing else is attempted. *)
Lemma store_in_transaction (c : CSQLiteDB) t i p n m :
  transaction c = Some t ->
  csqlite_store_bundle (Some c) (Some i) (Some p) n (Some m) = (CSQLITE_ERROR, Some c).
Proof.
  intros Ht. unfold csqlite_store_bundle. cbn. rewrite Ht. reflexivity.
Qed.



Lemma store_ok_inv (c : CSQLiteDB) i p n m db' :
  csqlite_store_bundle (Some c) (Some i) (Some p) n (Some m) = (CSQLITE_OK, db') ->
  exists s d,
    db' = Some (committed c (stored c i (firstn (Z.to_nat (CInt.to_int n)) p)
                                    (row_of (meta_id m) s d m)) 1) /\
    transaction c = None /\
    0 <= CInt.to_int n <= SQLITE_MAX_LENGTH /\
    has_bundle_row i (db_tables c) = false /\
    meta_source m = Some s /\ meta_destination m = Some d /\
    match meta_id m with
    | Some j => has_metadata_row j (db_tables c) = false /\
                (foreign_keys c = true -> j <> i ->
                 has_bundle_row j (db_tables c) = true)
    | None => True
    end.
Proof.
  intros H.
  assert (Ht : transaction c = None).
  { destruct (transaction c) as [t |] eqn:Ht; [| reflexivity].
    rewrite (store_in_transaction c t) in H by exact Ht. discriminate. }
  destruct (store_cases c i p n m Ht) as [(s & d & Hr & Hrest) | [Hne _]].
  - exists s, d. rewrite H in Hr. injection Hr as ->. tauto.
  - rewrite H in Hne. simpl in Hne. congruence.
Qed.

Lemma has_bundle_row_stored (c : CSQLiteDB) i b r :
  has_bundle_row i (stored c i b r) = true.
Proof.
  unfold has_bundle_row, stored. cbn -[key_is].
  rewrite existsb_app. cbn -[key_is]. rewrite key_is_refl. apply orb_true_r.
Qed.

Lemma memcpy_column_blob (st : sqlite3_stmt) (b : list byte) :
  column st 0 = VBlob b ->
  memcpy (sqlite3_column_blob st 0) (sqlite3_column_bytes st 0) = b.
Proof.
  unfold memcpy, sqlite3_column_blob, sqlite3_column_bytes. intros ->.
  rewrite Nat2Z.id. destruct b as [| x b]; [reflexivity |].
  apply firstn_all.
Qed.

Lemma get_bundle_eq malloc (c : CSQLiteDB) i d0 s0 :
  csqlite_get_bundle malloc (Some c) (Some i) (Some d0) (Some s0) =
  match find_bundle i (db_tables c) with
  | None => (CSQLITE_NOT_FOUND, Some d0, Some s0, Some c)
  | Some r =>
      let n := CInt.to_size_t (Z.of_nat (List.length (bundle_blob r))) in
      if malloc n
      then (CSQLITE_OK, Some (Some (bundle_blob r)), Some n, Some c)
      else (CSQLITE_ERROR, Some None, Some s0, Some c)
  end.
Proof.
  unfold find_bundle. rewrite <- find_filter.
  unfold csqlite_get_bundle, sqlite3_step, sqlite3_rows.
  cbn -[key_is memcpy sqlite3_column_blob sqlite3_column_bytes].
  destruct (filter _ (bundles (db_tables c))) as [| r rest];
    cbn -[key_is memcpy sqlite3_column_blob sqlite3_column_bytes]; [reflexivity |].
  rewrite (memcpy_column_blob _ (bundle_blob r)) by reflexivity.
  reflexivity.
Qed.

Lemma get_metadata_eq malloc (c : CSQLiteDB) i m0 :
  csqlite_get_metadata malloc (Some c) (Some i) (Some m0) =
  match find_metadata i (db_tables c) with
  | None => (CSQLITE_NOT_FOUND, Some m0, Some c)
  | Some r => (CSQLITE_OK, Some (record_of malloc r), Some c)
  end.
Proof.
  unfold find_metadata. rewrite <- find_filter.
  unfold csqlite_get_metadata, sqlite3_step, sqlite3_rows.
  cbn -[key_is read_metadata].
  destruct (filter _ (bundle_metadata (db_tables c))) as [| r rest];
    cbn -[key_is read_metadata]; [reflexivity |].
  unfold read_metadata, record_of, sqlite3_column_text, sqlite3_column_int,
    sqlite3_column_int64, column. cbn.
  destruct (md_id r); reflexivity.
Qed.

(** [csqlite_remove_bundle] runs the one DELETE and then reads the change
    counter. *)
Lemma remove_by_changes (c : CSQLiteDB) i :
  csqlite_remove_bundle (Some c) (Some i) =
  let '(rc, _, c') := sqlite3_step (delete_stmt c (Some i)) c in
  if negb (rc_eqb rc SQLITE_DONE) then (CSQLITE_ERROR, Some c')
  else (if 0 <? sqlite3_changes c' then CSQLITE_OK else CSQLITE_NOT_FOUND, Some c').
Proof. reflexivity. Qed.

Lemma remove_eq (c : CSQLiteDB) i :
  csqlite_remove_bundle (Some c) (Some i) =
  if has_bundle_row i (db_tables c)
  then (CSQLITE_OK,
        Some (set_tables c (removed (foreign_keys c) (db_tables c) i)
                         (count_matching (fun r => key_is i (bundle_key r))
                                         (bundles (db_tables c)))))
  else (CSQLITE_NOT_FOUND, Some (set_tables c (db_tables c) 0)).
Proof.
  unfold csqlite_remove_bundle, sqlite3_step, run_write, run_delete_bundle,
    sqlite3_changes, has_bundle_row, removed.
  cbn -[key_is count_matching].
  rewrite count_matching_zero.
  destruct (existsb _ (bundles (db_tables c))) eqn:He; cbn -[key_is count_matching].
  - rewrite count_matching_pos, He. reflexivity.
  - reflexivity.
Qed.

(** [csqlite_update_metadata] runs the one UPDATE and then reads the
    change counter; it prepares no other statement. *)
Lemma update_by_changes (c : CSQLiteDB) m i :
  meta_id m = Some i ->
  csqlite_update_metadata (Some c) (Some m) =
  let '(rc, _, c') := sqlite3_step (update_stmt c m) c in
  if negb (rc_eqb rc SQLITE_DONE) then (CSQLITE_ERROR, Some c')
  else (if 0 <? sqlite3_changes c' then CSQLITE_OK else CSQLITE_NOT_FOUND, Some c').
Proof.
  intros Hid. unfold csqlite_update_metadata, update_stmt. rewrite Hid. reflexivity.
Qed.

Lemma update_eq (c : CSQLiteDB) m i :
  meta_id m = Some i ->
  csqlite_update_metadata (Some c) (Some m) =
  if has_metadata_row i (db_tables c)
  then match meta_source m, meta_destination m with
       | Some s, Some d =>
           (CSQLITE_OK,
            Some (set_tables c (updated (db_tables c) i s d m)
                             (count_matching (fun r => key_is i (md_id r))
                                             (bundle_metadata (db_tables c)))))
       | _, _ => (CSQLITE_ERROR, Some (set_changes c 0))
       end
  else (CSQLITE_NOT_FOUND, Some (set_tables c (db_tables c) 0)).
Proof.
  intros Hid.
  unfold csqlite_update_metadata, sqlite3_step, run_write, run_update_metadata,
    sqlite3_changes, has_metadata_row, updated, row_of.
  rewrite Hid.
  cbn -[key_is count_matching].
  destruct (meta_source m) as [s |], (meta_destination m) as [d |];
    cbn -[key_is count_matching];
    rewrite count_matching_zero;
    destruct (existsb _ (bundle_metadata (db_tables c))) eqn:He;
    cbn -[key_is count_matching];
    try rewrite count_matching_pos, He; reflexivity.
Qed.

Lemma has_bundle_eq (c : CSQLiteDB) i e0 :
  csqlite_has_bundle (Some c) (Some i) (Some e0) =
  (CSQLITE_OK, Some (has_bundle_row i (db_tables c)), Some c).
Proof.
  unfold csqlite_has_bundle, sqlite3_step, sqlite3_rows, has_bundle_row.
  cbn -[key_is].
  induction (bundles (db_tables c)) as [| r l IH]; cbn -[key_is]; [reflexivity |].
  destruct (key_is i (bundle_key r)); cbn -[key_is]; [reflexivity | exact IH].
Qed.

Lemma count_bundles_eq (c : CSQLiteDB) :
  csqlite_count_bundles (Some c) =
  (CInt.to_uint64 (Z.of_nat (List.length (bundles (db_tables c)))), Some c).
Proof. reflexivity. Qed.

(** The two row loops of the list operations agree with the cursor:
    [sqlite3_step] on a query delivers the rows of [sqlite3_rows] one by
    one. *)
Lemma sqlite3_step_row (st : sqlite3_stmt) (c : sqlite3) r rest :
  is_query (stmt_sql st) = true ->
  sqlite3_rows st c = r :: rest ->
  sqlite3_step st c = (SQLITE_ROW, on_row st r rest, c).
Proof.
  intros Hq Hrows. unfold sqlite3_step. rewrite Hq, Hrows. reflexivity.
Qed.

Lemma sqlite3_step_done (st : sqlite3_stmt) (c : sqlite3) :
  is_query (stmt_sql st) = true ->
  sqlite3_rows st c = [] ->
  sqlite3_step st c = (SQLITE_DONE, sqlite3_reset st, c).
Proof.
  intros Hq Hrows. unfold sqlite3_step. rewrite Hq, Hrows. reflexivity.
Qed.

Lemma sqlite3_rows_on_row (st : sqlite3_stmt) (c : sqlite3) r rest :
  sqlite3_rows (on_row st r rest) c = rest.
Proof. reflexivity. Qed.

(* ----------------------------------------------------------------- *)
(** *** Reading back what was stored *)

Lemma find_bundle_stored (c : CSQLiteDB) i b r :
  has_bundle_row i (db_tables c) = false ->
  find_bundle i (stored c i b r) = Some {| bundle_key := Some i; bundle_blob := b |}.
Proof.
  intros H. unfold find_bundle, stored. cbn -[key_is].
  apply find_app_fresh; [exact H | apply key_is_refl].
Qed.

Lemma find_metadata_stored (c : CSQLiteDB) i b r :
  has_metadata_row i (db_tables c) = false -> md_id r = Some i ->
  find_metadata i (stored c i b r) = Some r.
Proof.
  intros H Hr. unfold find_metadata, stored. cbn -[key_is].
  apply find_app_fresh; [exact H | rewrite Hr; apply key_is_refl].
Qed.








Lemma store_b1_stored :
  csqlite_store_bundle (Some opened) (Some b1) (Some payload_b1)
                       (Z.of_nat (List.length payload_b1))
                       (Some (sample_metadata (Some b1)))
  = (CSQLITE_OK, Some store_b1).
Proof. reflexivity. Qed.




(* ----------------------------------------------------------------- *)
(** *** Duplicate ids *)



(* ----------------------------------------------------------------- *)
(** *** Removal *)

Lemma removed_no_bundle fk t i : find_bundle i (removed fk t i) = None.
Proof.
  unfold find_bundle, removed. cbn -[key_is].
  apply find_none_existsb.
  apply (existsb_filter_out (fun r => key_is i (bundle_key r))).
Qed.

Lemma removed_no_metadata t i : find_metadata i (removed true t i) = None.
Proof.
  unfold find_metadata, removed. cbn -[key_is].
  apply find_none_existsb.
  apply (existsb_filter_out (fun r => key_is i (md_id r))).
Qed.

(** A successful [csqlite_remove_bundle] on a connection that enforces
    foreign keys leaves neither the bundle nor its metadata. *)
Lemma remove_then_not_found malloc (c c2 : CSQLiteDB) i :
  foreign_keys c = true ->
  csqlite_remove_bundle (Some c) (Some i) = (CSQLITE_OK, Some c2) ->
  (forall d0 s0,
      csqlite_get_bundle malloc (Some c2) (Some i) (Some d0) (Some s0)
        = (CSQLITE_NOT_FOUND, Some d0, Some s0, Some c2)) /\
  (forall m0,
      csqlite_get_metadata malloc (Some c2) (Some i) (Some m0)
        = (CSQLITE_NOT_FOUND, Some m0, Some c2)).
Proof.
  intros Hfk. rewrite remove_eq, Hfk.
  destruct (has_bundle_row i (db_tables c)); [| discriminate].
  intros H. injection H as <-. split.
  - intros d0 s0. rewrite get_bundle_eq. cbn -[find_bundle removed].
    rewrite removed_no_bundle. reflexivity.
  - intros m0. rewrite get_metadata_eq. cbn -[find_metadata removed].
    rewrite removed_no_metadata. reflexivity.
Qed.

(** C4.  Cascading delete: on a store opened by [csqlite_open] (foreign
    keys enforced), after [csqlite_store_bundle(i, p, m)] returned Ok,
    [csqlite_remove_bundle(i)] returns Ok and afterwards both
    [csqlite_get_bundle(i)] and [csqlite_get_metadata(i)] return NotFound,
    although the wrapper issues the single DELETE on [bundles]. *)
Theorem remove_cascades malloc (c : CSQLiteDB) i p m c1 :
  foreign_keys c = true ->
  csqlite_store_bundle (Some c) (Some i) (Some p) (Z.of_nat (List.length p)) (Some m)
    = (CSQLITE_OK, Some c1) ->
  exists c2,
    csqlite_remove_bundle (Some c1) (Some i) = (CSQLITE_OK, Some c2) /\
    csqlite_remove_bundle (Some c1) (Some i) =
      (let '(rc, _, c') := sqlite3_step (delete_stmt c1 (Some i)) c1 in
       if negb (rc_eqb rc SQLITE_DONE) then (CSQLITE_ERROR, Some c')
       else (if 0 <? sqlite3_changes c' then CSQLITE_OK else CSQLITE_NOT_FOUND,
             Some c')) /\
    (forall d0 s0,
        csqlite_get_bundle malloc (Some c2) (Some i) (Some d0) (Some s0)
          = (CSQLITE_NOT_FOUND, Some d0, Some s0, Some c2)) /\
    (forall m0,
        csqlite_get_metadata malloc (Some c2) (Some i) (Some m0)
          = (CSQLITE_NOT_FOUND, Some m0, Some c2)).
Proof.
  intros Hfk Hstore.
  apply store_ok_inv in Hstore as (s & d & Hc1 & _).
  injection Hc1 as Hc1.
  assert (Hhas : has_bundle_row i (db_tables c1) = true)
    by (subst c1; apply has_bundle_row_stored).
  assert (Hfk1 : foreign_keys c1 = true) by (subst c1; exact Hfk).
  assert (Hrem : exists c2, csqlite_remove_bundle (Some c1) (Some i) = (CSQLITE_OK, Some c2)).
  { rewrite remove_eq, Hhas. eexists. reflexivity. }
  destruct Hrem as [c2 Hrem]. exists c2.
  split; [exact Hrem |]. split; [apply remove_by_changes |].
  exact (remove_then_not_found malloc c1 c2 i Hfk1 Hrem).
Qed.

Lemma remove_cascades_witness :
  foreign_keys opened = true /\
  csqlite_store_bundle (Some opened) (Some b1) (Some payload_b1) 3
                       (Some (sample_metadata (Some b1)))
    = (CSQLITE_OK, Some store_b1) /\
  exists c2,
    csqlite_remove_bundle (Some store_b1) (Some b1) = (CSQLITE_OK, Some c2) /\
    csqlite_get_bundle malloc_always (Some c2) (Some b1) (Some None) (Some 0)
      = (CSQLITE_NOT_FOUND, Some None, Some 0, Some c2) /\
    csqlite_get_metadata malloc_always (Some c2) (Some b1) (Some (sample_metadata None))
      = (CSQLITE_NOT_FOUND, Some (sample_metadata None), Some c2).
Proof.
  split; [reflexivity |]. split; [exact store_b1_stored |].
  destruct (remove_cascades malloc_always opened b1 payload_b1
              (sample_metadata (Some b1)) store_b1 eq_refl store_b1_stored)
    as (c2 & Hrem & _ & Hget & Hmeta).
  exists c2. exact (conj Hrem (conj (Hget None 0) (Hmeta (sample_metadata None)))).
Defined.

(** C9.  Remove miss: for every id [i] that has no row in [bundles],
    [csqlite_remove_bundle(i)] returns NotFound, the change counter it
    reads is 0, the tables are unchanged, and [csqlite_count_bundles]
    returns the same value before and after the call. *)
Theorem remove_miss (c : CSQLiteDB) i :
  has_bundle_row i (db_tables c) = false ->
  exists c',
    csqlite_remove_bundle (Some c) (Some i) = (CSQLITE_NOT_FOUND, Some c') /\
    sqlite3_step (delete_stmt c (Some i)) c = (SQLITE_DONE, delete_stmt c (Some i), c') /\
    sqlite3_changes c' = 0 /\
    db_tables c' = db_tables c /\
    foreign_keys c' = foreign_keys c /\
    transaction c' = transaction c /\
    fst (csqlite_count_bundles (Some c')) = fst (csqlite_count_bundles (Some c)).
Proof.
  intros Hmiss. rewrite remove_eq, Hmiss.
  eexists. split; [reflexivity |]. repeat split.
  unfold sqlite3_step, delete_stmt, run_write, run_delete_bundle.
  cbn -[key_is count_matching].
  rewrite count_matching_zero.
  unfold has_bundle_row in Hmiss. rewrite Hmiss. reflexivity.
Qed.

Lemma remove_miss_witness :
  has_bundle_row "b2" (db_tables store_b1) = false /\
  exists c',
    csqlite_remove_bundle (Some store_b1) (Some "b2"%string)
      = (CSQLITE_NOT_FOUND, Some c') /\
    db_tables c' = db_tables store_b1 /\
    fst (csqlite_count_bundles (Some c')) = 1.
Proof.
  split; [reflexivity |].
  destruct (remove_miss store_b1 "b2"%string eq_refl)
    as (c' & Hrem & _ & _ & Htables & _ & _ & Hcount).
  exists c'. exact (conj Hrem (conj Htables Hcount)).
Defined.

(* ----------------------------------------------------------------- *)
(** *** Updating metadata *)






(** C6.  Update miss: for every metadata record [m] whose id [i] has no
    row in [bundle_metadata], [csqlite_update_metadata(m)] returns
    NotFound.  The call runs the UPDATE statement, which completes with
    SQLITE_DONE, and decides on the change counter read afterwards, which
    is 0; it runs no query before the write.  The tables are unchanged: no
    row is created. *)
Theorem update_metadata_miss (c : CSQLiteDB) m i :
  meta_id m = Some i ->
  has_metadata_row i (db_tables c) = false ->
  exists c',
    csqlite_update_metadata (Some c) (Some m) = (CSQLITE_NOT_FOUND, Some c') /\
    sqlite3_step (update_stmt c m) c = (SQLITE_DONE, update_stmt c m, c') /\
    sqlite3_changes c' = 0 /\
    csqlite_update_metadata (Some c) (Some m) =
      (if 0 <? sqlite3_changes c' then CSQLITE_OK else CSQLITE_NOT_FOUND, Some c') /\
    db_tables c' = db_tables c /\
    foreign_keys c' = foreign_keys c /\
    transaction c' = transaction c.
Proof.
  intros Hid Hmiss.
  rewrite (update_eq c m i Hid), Hmiss.
  eexists. split; [reflexivity |]. repeat split.
  unfold sqlite3_step, update_stmt, run_write, run_update_metadata.
  rewrite Hid. cbn -[key_is count_matching].
  rewrite count_matching_zero.
  unfold has_metadata_row in Hmiss. rewrite Hmiss.
  destruct (meta_source m), (meta_destination m); reflexivity.
Qed.

Lemma update_metadata_miss_witness :
  has_metadata_row "b2" (db_tables store_b1) = false /\
  exists c',
    csqlite_update_metadata (Some store_b1) (Some (sample_metadata (Some "b2"%string)))
      = (CSQLITE_NOT_FOUND, Some c') /\
    sqlite3_changes c' = 0 /\
    db_tables c' = db_tables store_b1.
Proof.
  split; [reflexivity |].
  destruct (update_metadata_miss store_b1 (sample_metadata (Some "b2"%string))
              "b2"%string eq_refl eq_refl)
    as (c' & Hupd & _ & Hchanges & _ & Htables & _).
  exists c'. exact (conj Hupd (conj Hchanges Htables)).
Defined.

(* ----------------------------------------------------------------- *)
(** *** Queries *)

(** C10.  Queries are read-only: for every state of the handle and every
    argument, [csqlite_get_bundle], [csqlite_get_metadata],
    [csqlite_has_bundle], [csqlite_count_bundles], [csqlite_get_all_ids]
    and [csqlite_get_all_metadata] return the connection exactly as they
    found it, whatever code they return, so that an operation sequenced
    after one of them starts from the same state as before. *)
Theorem queries_read_only malloc (db : ptr CSQLiteDB) :
  (forall bundle_id bundle_data bundle_size,
      snd (csqlite_get_bundle malloc db bundle_id bundle_data bundle_size) = db) /\
  (forall bundle_id metadata,
      snd (csqlite_get_metadata malloc db bundle_id metadata) = db) /\
  (forall bundle_id exists_,
      snd (csqlite_has_bundle db bundle_id exists_) = db) /\
  snd (csqlite_count_bundles db) = db /\
  (forall ids count,
      snd (csqlite_get_all_ids malloc db ids count) = db) /\
  (forall metadata count,
      snd (csqlite_get_all_metadata malloc db metadata count) = db).
Proof.
  repeat split.
  - intros [i |] [d0 |] [s0 |]; destruct db as [c |]; try reflexivity.
    rewrite get_bundle_eq. destruct (find_bundle i (db_tables c)); [| reflexivity].
    cbn. destruct (malloc _); reflexivity.
  - intros [i |] [m0 |]; destruct db as [c |]; try reflexivity.
    rewrite get_metadata_eq. destruct (find_metadata i (db_tables c)); reflexivity.
  - intros [i |] [e0 |]; destruct db as [c |]; try reflexivity.
    rewrite has_bundle_eq. reflexivity.
  - destruct db; reflexivity.
  - intros [ids0 |] [count0 |]; destruct db as [c |]; try reflexivity.
    unfold csqlite_get_all_ids. cbn -[count_rows fetch_ids Z.mul].
    repeat (split_match; cbn -[count_rows fetch_ids Z.mul]); reflexivity.
  - intros [md0 |] [count0 |]; destruct db as [c |]; try reflexivity.
    unfold csqlite_get_all_metadata. cbn -[count_rows fetch_metadata Z.mul].
    repeat (split_match; cbn -[count_rows fetch_metadata Z.mul]); reflexivity.
Qed.

(* ----------------------------------------------------------------- *)
(** *** The list operations *)

Ltac solve_length :=
  unfold CInt.UINT64_MAX, CInt.sizeof_ptr, CInt.sizeof_CSQLiteBundleMetadata in *;
  rewrite ?length_map;
  repeat match goal with
         | |- context [Z.of_nat ?x] =>
             pose proof (Nat2Z.is_nonneg x); generalize dependent (Z.of_nat x); intros
         end;
  lia.

(** The first pass counts the rows. *)
Lemma count_rows_length (rows : list (list value)) (n : Z) :
  0 <= n -> n + Z.of_nat (List.length rows) <= CInt.UINT64_MAX ->
  count_rows rows n = n + Z.of_nat (List.length rows).
Proof.
  revert n. induction rows as [| r rest IH]; intros n Hn Hmax; simpl count_rows.
  - simpl. lia.
  - rewrite to_size_t_id by (simpl List.length in Hmax; lia).
    rewrite IH by (simpl List.length in Hmax; lia).
    simpl List.length. lia.
Qed.

(** The second pass copies every id, in table order. *)
Lemma fetch_ids_all malloc (st : sqlite3_stmt) (keys : list (option string)) (n i : Z)
      (acc : list (ptr string)) :
  0 <= i -> i + Z.of_nat (List.length keys) <= n -> n <= CInt.UINT64_MAX ->
  fetch_ids malloc st (map (fun k => [of_text k]) keys) n i acc =
  (acc ++ map (csqlite_strdup malloc) keys, i + Z.of_nat (List.length keys)).
Proof.
  revert i acc. induction keys as [| k rest IH]; intros i acc Hi Hn Hmax; simpl.
  - rewrite app_nil_r. f_equal. lia.
  - simpl List.length in Hn.
    destruct (Z.ltb_spec i n) as [_ | Hge]; [| lia].
    rewrite to_size_t_id by lia.
    rewrite IH by lia.
    rewrite <- app_assoc. simpl. f_equal.
    + f_equal. f_equal. unfold sqlite3_column_text, column, on_row. simpl.
      destruct k; reflexivity.
    + lia.
Qed.



(** [csqlite_get_all_ids] returns the id of every [bundles] row, and the
    null array for an empty table. *)
Lemma get_all_ids_eq malloc (c : CSQLiteDB) ids0 count0 :
  Z.of_nat (List.length (bundles (db_tables c))) * CInt.sizeof_ptr <= CInt.UINT64_MAX ->
  csqlite_get_all_ids malloc (Some c) (Some ids0) (Some count0) =
  let n := Z.of_nat (List.length (bundles (db_tables c))) in
  if n =? 0 then (CSQLITE_OK, Some None, Some 0, Some c)
  else if malloc (n * CInt.sizeof_ptr)
       then (CSQLITE_OK,
             Some (Some (map (fun r => csqlite_strdup malloc (bundle_key r))
                             (bundles (db_tables c)))),
             Some n, Some c)
       else (CSQLITE_ERROR, Some None, Some count0, Some c).
Proof.
  intros Hmax.
  unfold csqlite_get_all_ids, sqlite3_rows, sqlite3_reset.
  cbn -[count_rows fetch_ids Z.mul Z.eqb].
  rewrite <- (map_map bundle_key (fun k => [of_text k])).
  rewrite count_rows_length by solve_length.
  rewrite !length_map. rewrite Z.add_0_l.
  destruct (Z.eqb_spec (Z.of_nat (List.length (bundles (db_tables c)))) 0) as [H0 | Hpos];
    [reflexivity |].
  rewrite to_size_t_id by solve_length.
  destruct (malloc _); cbn -[fetch_ids Z.mul]; [| reflexivity].
  rewrite fetch_ids_all by solve_length.
  rewrite !length_map, map_map. reflexivity.
Qed.


(* ----------------------------------------------------------------- *)
(** *** Argument validation *)

(** C7 (as amended).  Argument validation: every public operation that
    returns a result code returns Error at once, the handle and the cells
    behind its output pointers left as they were, when the handle, the
    identifier, the payload pointer, the metadata pointer or an output
    pointer it takes is null, and so does [csqlite_update_metadata] when
    the [id] of its record is null; [csqlite_count_bundles] returns 0 on a
    null handle.  An empty identifier is not rejected: it is an id like
    any other, and [csqlite_store_bundle] with the empty id on a new
    database returns Ok. *)
Theorem null_arguments_rejected malloc :
  (* csqlite_store_bundle *)
  (forall i d n m, csqlite_store_bundle None i d n m = (CSQLITE_ERROR, None)) /\
  (forall db d n m, csqlite_store_bundle db None d n m = (CSQLITE_ERROR, db)) /\
  (forall db i n m, csqlite_store_bundle db i None n m = (CSQLITE_ERROR, db)) /\
  (forall db i d n, csqlite_store_bundle db i d n None = (CSQLITE_ERROR, db)) /\
  (* csqlite_get_bundle *)
  (forall i d s, csqlite_get_bundle malloc None i d s = (CSQLITE_ERROR, d, s, None)) /\
  (forall db d s, csqlite_get_bundle malloc db None d s = (CSQLITE_ERROR, d, s, db)) /\
  (forall db i s, csqlite_get_bundle malloc db i None s = (CSQLITE_ERROR, None, s, db)) /\
  (forall db i d, csqlite_get_bundle malloc db i d None = (CSQLITE_ERROR, d, None, db)) /\
  (* csqlite_get_metadata *)
  (forall i m, csqlite_get_metadata malloc None i m = (CSQLITE_ERROR, m, None)) /\
  (forall db m, csqlite_get_metadata malloc db None m = (CSQLITE_ERROR, m, db)) /\
  (forall db i, csqlite_get_metadata malloc db i None = (CSQLITE_ERROR, None, db)) /\
  (* csqlite_update_metadata *)
  (forall m, csqlite_update_metadata None m = (CSQLITE_ERROR, None)) /\
  (forall db, csqlite_update_metadata db None = (CSQLITE_ERROR, db)) /\
  (forall db s d ct sz cs,
      csqlite_update_metadata db
        (Some {| meta_id := None; meta_source := s; meta_destination := d;
                 meta_creation_time := ct; meta_size := sz; meta_constraints := cs |})
      = (CSQLITE_ERROR, db)) /\
  (* csqlite_remove_bundle *)
  (forall i, csqlite_remove_bundle None i = (CSQLITE_ERROR, None)) /\
  (forall db, csqlite_remove_bundle db None = (CSQLITE_ERROR, db)) /\
  (* csqlite_has_bundle *)
  (forall i e, csqlite_has_bundle None i e = (CSQLITE_ERROR, e, None)) /\
  (forall db e, csqlite_has_bundle db None e = (CSQLITE_ERROR, e, db)) /\
  (forall db i, csqlite_has_bundle db i None = (CSQLITE_ERROR, None, db)) /\
  (* csqlite_get_all_ids *)
  (forall ids n, csqlite_get_all_ids malloc None ids n = (CSQLITE_ERROR, ids, n, None)) /\
  (forall db n, csqlite_get_all_ids malloc db None n = (CSQLITE_ERROR, None, n, db)) /\
  (forall db ids, csqlite_get_all_ids malloc db ids None = (CSQLITE_ERROR, ids, None, db)) /\
  (* csqlite_get_all_metadata *)
  (forall a n, csqlite_get_all_metadata malloc None a n = (CSQLITE_ERROR, a, n, None)) /\
  (forall db n, csqlite_get_all_metadata malloc db None n = (CSQLITE_ERROR, None, n, db)) /\
  (forall db a, csqlite_get_all_metadata malloc db a None = (CSQLITE_ERROR, a, None, db)) /\
  (* csqlite_count_bundles has no result code *)
  csqlite_count_bundles None = (0, None) /\
  (* the empty identifier *)
  fst (csqlite_store_bundle (Some opened) (Some EmptyString) (Some payload_b1) 3
                            (Some (sample_metadata (Some EmptyString)))) = CSQLITE_OK.
Proof.
  repeat split; intros;
    repeat match goal with
           | x : ptr _ |- _ => destruct x
           | x : option _ |- _ => destruct x
           end;
    reflexivity.
Qed.

(** An empty identifier is an id like any other: stored in a new database
    under the empty id, a bundle and its metadata are persisted and the
    call returns Ok, not Error. *)
Lemma empty_id_accepted :
  exists c,
    csqlite_store_bundle (Some opened) (Some EmptyString) (Some payload_b1) 3
                         (Some (sample_metadata (Some EmptyString)))
      = (CSQLITE_OK, Some c) /\
    CSQLITE_OK <> CSQLITE_ERROR /\
    db_tables c <> db_tables opened /\
    has_bundle_row EmptyString (db_tables c) = true /\
    has_metadata_row EmptyString (db_tables c) = true /\
    csqlite_get_bundle malloc_always (Some c) (Some EmptyString) (Some None) (Some 0)
      = (CSQLITE_OK, Some (Some payload_b1), Some 3, Some c).
Proof.
  eexists. repeat split; discriminate.
Qed.

(* ----------------------------------------------------------------- *)
(** *** The referential invariant *)

Lemma has_bundle_row_removed fk t i k :
  has_bundle_row k (removed fk t i) =
  if String.eqb k i then false else has_bundle_row k t.
Proof.
  unfold has_bundle_row, removed. cbn -[key_is].
  destruct (String.eqb_spec k i) as [-> | Hki].
  - apply (existsb_filter_out (fun r => key_is i (bundle_key r))).
  - apply existsb_filter_other. intros r. apply key_is_other. exact Hki.
Qed.


Lemma has_metadata_row_updated t i s d m k :
  has_metadata_row k (updated t i s d m) = has_metadata_row k t.
Proof.
  unfold has_metadata_row, updated. cbn -[key_is].
  induction (bundle_metadata t) as [| r l IH]; cbn -[key_is]; [reflexivity |].
  rewrite IH. destruct (key_is i (md_id r)); reflexivity.
Qed.




(** Whatever the arguments, a reachable store enforces foreign keys and
    has no transaction open. *)
Lemma reachable_connection (c : CSQLiteDB) :
  reachable c -> foreign_keys c = true /\ transaction c = None.
Proof.
  induction 1 as [malloc path result c Hopen | c k c' _ [Hfk Ht] _ Hrun].
  - apply csqlite_open_opened in Hopen. subst c. split; reflexivity.
  - destruct k as [[i |] [p |] n [m |] | [m |] | [i |]]; unfold run in Hrun;
      try (simpl in Hrun; injection Hrun as <-; split; assumption).
    + destruct (store_cases c i p n m Ht) as [(s & d & Hr & _) | [_ [z Hz]]].
      * rewrite Hr in Hrun. simpl in Hrun. injection Hrun as <-.
        split; assumption || reflexivity.
      * rewrite Hz in Hrun. injection Hrun as <-. split; assumption || reflexivity.
    + destruct (meta_id m) as [i |] eqn:Hid.
      * rewrite (update_eq c m i Hid) in Hrun.
        destruct (has_metadata_row i (db_tables c));
          [destruct (meta_source m), (meta_destination m) |];
          injection Hrun as <-; split; assumption.
      * unfold csqlite_update_metadata in Hrun. rewrite Hid in Hrun.
        injection Hrun as <-. split; assumption.
    + rewrite remove_eq in Hrun.
      destruct (has_bundle_row i (db_tables c));
        injection Hrun as <-; split; assumption.
Qed.

(** C3.  The referential invariant is claimed for every store reachable
    through the public operations.  [csqlite_store_bundle] checks its
    [metadata] pointer but not [metadata->id] (as
    [csqlite_update_metadata] does): called on a new database with id
    b1 and a record whose [id] is null it returns Ok, and the store it
    leaves holds a [bundles] row b1 and no [bundle_metadata] row b1 (the
    metadata row was inserted with a NULL id, which needs no parent and
    breaks no uniqueness). *)
Theorem null_metadata_id_breaks_referential :
  exists c,
    csqlite_store_bundle (Some opened) (Some b1) (Some payload_b1) 3
                         (Some (sample_metadata None))
      = (CSQLITE_OK, Some c) /\
    reachable c /\
    has_bundle_row b1 (db_tables c) = true /\
    has_metadata_row b1 (db_tables c) = false /\
    csqlite_get_metadata malloc_always (Some c) (Some b1) (Some (sample_metadata None))
      = (CSQLITE_NOT_FOUND, Some (sample_metadata None), Some c) /\
    ~ referential c.
Proof.
  eexists. split; [reflexivity |]. split; [| split; [| split; [| split]]].
  - apply reach_call with (c := opened)
      (k := StoreBundle (Some b1) (Some payload_b1) 3 (Some (sample_metadata None))).
    + apply reach_open with (malloc := malloc_always) (path := None) (result := None).
      reflexivity.
    + exact I.
    + reflexivity.
  - reflexivity.
  - reflexivity.
  - reflexivity.
  - intros H. specialize (H b1). discriminate H.
Qed.

(* ----------------------------------------------------------------- *)
(** *** Zero-length payloads *)

(** After a payload of length 0 was stored under [i], the result of
    [csqlite_get_bundle(i)] follows the allocator's answer to the request
    for 0 bytes: Ok with size 0 when it is a pointer, Error when it is
    null. *)
Lemma zero_length_get (malloc : Z -> bool) (c : CSQLiteDB) i p m c1 d0 s0 :
  csqlite_store_bundle (Some c) (Some i) (Some p) 0 (Some m) = (CSQLITE_OK, Some c1) ->
  csqlite_get_bundle malloc (Some c1) (Some i) (Some d0) (Some s0) =
  if malloc 0
  then (CSQLITE_OK, Some (Some []), Some 0, Some c1)
  else (CSQLITE_ERROR, Some None, Some s0, Some c1).
Proof.
  intros Hstore.
  apply store_ok_inv in Hstore as (s & d & Hc1 & _ & _ & Hfresh & _).
  injection Hc1 as ->.
  rewrite get_bundle_eq. cbn -[find_bundle stored].
  rewrite find_bundle_stored by exact Hfresh. reflexivity.
Qed.

(** C8.  A zero-length payload stored under [i] is claimed to read back as
    Ok with size 0.  [csqlite_get_bundle] takes a null result of
    [malloc(blob_size)] for an allocation failure also when [blob_size]
    is 0 (the list operations return before they allocate when there is
    nothing to copy): with a C library whose [malloc(0)] is null, the
    bundle b1 stored with an empty payload exists and reads back as
    Error. *)
Theorem zero_length_get_fails_when_malloc_0_is_null :
  exists c,
    csqlite_store_bundle (Some opened) (Some b1) (Some []) 0
                         (Some (sample_metadata (Some b1)))
      = (CSQLITE_OK, Some c) /\
    malloc_null_on_zero 0 = false /\
    csqlite_get_bundle malloc_null_on_zero (Some c) (Some b1) (Some None) (Some 7)
      = (CSQLITE_ERROR, Some None, Some 7, Some c) /\
    csqlite_has_bundle (Some c) (Some b1) (Some false) = (CSQLITE_OK, Some true, Some c).
Proof. eexists. repeat split. Qed.

(* ----------------------------------------------------------------- *)
(** *** The scenario of the specification *)

Example scenario_store :
  csqlite_open malloc_always (Some ":memory:"%string) (Some CSQLITE_ERROR)
    = (Some opened, Some CSQLITE_OK) /\
  csqlite_store_bundle (Some opened) (Some b1) (Some payload_b1) 3
                       (Some (sample_metadata (Some b1)))
    = (CSQLITE_OK, Some store_b1) /\
  csqlite_get_bundle malloc_always (Some store_b1) (Some b1) (Some None) (Some 0)
    = (CSQLITE_OK, Some (Some payload_b1), Some 3, Some store_b1) /\
  csqlite_get_metadata malloc_always (Some store_b1) (Some b1) (Some (sample_metadata None))
    = (CSQLITE_OK, Some (sample_metadata (Some b1)), Some store_b1) /\
  csqlite_has_bundle (Some store_b1) (Some b1) (Some false)
    = (CSQLITE_OK, Some true, Some store_b1) /\
  csqlite_count_bundles (Some store_b1) = (1, Some store_b1) /\
  csqlite_get_all_ids malloc_always (Some store_b1) (Some None) (Some 0)
    = (CSQLITE_OK, Some (Some [Some b1]), Some 1, Some store_b1) /\
  csqlite_get_all_metadata malloc_always (Some store_b1) (Some None) (Some 0)
    = (CSQLITE_OK, Some (Some [sample_metadata (Some b1)]), Some 1, Some store_b1).
Proof. repeat split. Qed.

Example scenario_remove :
  exists c,
    csqlite_remove_bundle (Some store_b1) (Some b1) = (CSQLITE_OK, Some c) /\
    db_tables c = empty_tables /\
    csqlite_count_bundles (Some c) = (0, Some c) /\
    csqlite_has_bundle (Some c) (Some b1) (Some true) = (CSQLITE_OK, Some false, Some c) /\
    csqlite_get_all_ids malloc_always (Some c) (Some None) (Some 5)
      = (CSQLITE_OK, Some None, Some 0, Some c).
Proof. eexists. repeat split. Qed.

(** A metadata record for another id cannot be smuggled in: with b1
    stored, a bundle b2 whose record names b1 is refused (uniqueness), one
    whose record names the absent b3 is refused (foreign key), and both
    leave the tables as they were. *)
Example scenario_mismatched_ids :
  (exists c,
      csqlite_store_bundle (Some store_b1) (Some "b2"%string) (Some payload_b1) 3
                           (Some (sample_metadata (Some b1)))
        = (CSQLITE_ERROR, Some c) /\
      db_tables c = db_tables store_b1) /\
  (exists c,
      csqlite_store_bundle (Some store_b1) (Some "b2"%string) (Some payload_b1) 3
                           (Some (sample_metadata (Some "b3"%string)))
        = (CSQLITE_ERROR, Some c) /\
      db_tables c = db_tables store_b1).
Proof. split; eexists; split; reflexivity. Qed.

(* ================================================================= *)
(** * Further properties of the wrapper *)

(** Properties of the operations beyond the specification's claims:
    failure paths of [csqlite_store_bundle], frame properties of the
    writes, the list operations against the point queries, and the
    integer and allocation behaviour of the metadata record. *)

Lemma reachable_store_b1 : reachable_by metadata_id_given store_b1.
Proof.
  apply reach_call with (c := opened)
    (k := StoreBundle (Some b1) (Some payload_b1) 3 (Some (sample_metadata (Some b1)))).
  - apply reach_open with (malloc := malloc_always) (path := None) (result := None).
    reflexivity.
  - discriminate.
  - reflexivity.
Qed.

Lemma reachable_by_any (allowed : call -> Prop) (c : CSQLiteDB) :
  reachable_by allowed c -> reachable c.
Proof.
  induction 1 as [malloc path result c Hopen | c k c' _ IH _ Hrun].
  - exact (reach_open _ malloc path result c Hopen).
  - exact (reach_call _ c k c' IH I Hrun).
Qed.






(** With a fresh id and a payload the engine takes, the first INSERT of
    [csqlite_store_bundle] succeeds: the call returns Ok or Error, never
    Constraint. *)
Lemma store_fresh_code (c : CSQLiteDB) i p n m :
  transaction c = None ->
  has_bundle_row i (db_tables c) = false ->
  0 <= CInt.to_int n <= SQLITE_MAX_LENGTH ->
  fst (csqlite_store_bundle (Some c) (Some i) (Some p) n (Some m)) = CSQLITE_OK \/
  fst (csqlite_store_bundle (Some c) (Some i) (Some p) n (Some m)) = CSQLITE_ERROR.
Proof.
  intros Ht Hfresh [Hn0 Hn1].
  apply Z.ltb_ge in Hn0. apply Z.ltb_ge in Hn1.
  destruct m as [[j |] [s |] [d |] ct sz cs];
  unfold csqlite_store_bundle, sqlite3_bind_blob, blob_value, sqlite3_step, run_write,
    run_insert_bundle, run_insert_metadata;
  cbn -[key_is has_bundle_row]; rewrite Ht; cbn -[key_is has_bundle_row];
  rewrite Hn0, Hn1; cbn -[key_is has_bundle_row];
  rewrite Hfresh; cbn -[key_is has_bundle_row];
  repeat (split_match; cbn -[key_is has_bundle_row]); auto.
Qed.




(** X4.  A record without source or destination is refused: with a fresh
    id and a null [source] or [destination], [csqlite_store_bundle]
    returns Error, and the bundle row its first INSERT wrote is rolled
    back with the transaction. *)
Theorem store_null_string_refused (c : CSQLiteDB) i p n m :
  transaction c = None ->
  meta_source m = None \/ meta_destination m = None ->
  has_bundle_row i (db_tables c) = false ->
  0 <= CInt.to_int n <= SQLITE_MAX_LENGTH ->
  exists c',
    csqlite_store_bundle (Some c) (Some i) (Some p) n (Some m) = (CSQLITE_ERROR, Some c') /\
    db_tables c' = db_tables c /\
    transaction c' = None /\
    has_bundle_row i (db_tables c') = false.
Proof.
  intros Ht Hnull Hfresh Hn.
  destruct (store_cases c i p n m Ht)
    as [(s & d & Hr & _ & _ & Hs & Hd & _) | [Hne [k Hk]]].
  - exfalso. destruct Hnull; congruence.
  - destruct (store_fresh_code c i p n m Ht Hfresh Hn) as [Hok | Herr]; [congruence |].
    exists (committed c (db_tables c) k).
    split; [| repeat split; assumption].
    rewrite (surjective_pairing (csqlite_store_bundle _ _ _ _ _)), Herr, Hk. reflexivity.
Qed.

(* ---- frames ---- *)

Lemma find_app_other {A} (f : A -> bool) (l : list A) (a : A) :
  f a = false -> find f (l ++ [a]) = find f l.
Proof.
  induction l as [| b l IH]; simpl; intros Ha.
  - rewrite Ha. reflexivity.
  - destruct (f b); auto.
Qed.

Lemma find_filter_other {A} (f g : A -> bool) (l : list A) :
  (forall a, f a = true -> g a = false) ->
  find f (filter (fun a => negb (g a)) l) = find f l.
Proof.
  intros H. induction l as [| a l IH]; simpl; [reflexivity |].
  destruct (g a) eqn:Hg; simpl.
  - destruct (f a) eqn:Hf; [apply H in Hf; congruence | exact IH].
  - destruct (f a); [reflexivity | exact IH].
Qed.

Lemma key_is_sym_false (i j : string) : j <> i -> key_is j (Some i) = false.
Proof. intros H. simpl. apply String.eqb_neq. congruence. Qed.

Lemma find_bundle_stored_other (c : CSQLiteDB) i j b r :
  j <> i -> find_bundle j (stored c i b r) = find_bundle j (db_tables c).
Proof.
  intros H. unfold find_bundle, stored. cbn -[key_is].
  apply find_app_other. cbn -[key_is]. apply key_is_sym_false. exact H.
Qed.

Lemma find_metadata_stored_other (c : CSQLiteDB) i j b r :
  md_id r <> Some j -> find_metadata j (stored c i b r) = find_metadata j (db_tables c).
Proof.
  intros H. unfold find_metadata, stored. cbn -[key_is].
  apply find_app_other.
  destruct (key_is j (md_id r)) eqn:Hk; [| reflexivity].
  apply key_is_true in Hk. contradiction.
Qed.

Lemma find_bundle_removed_other fk t i j :
  j <> i -> find_bundle j (removed fk t i) = find_bundle j t.
Proof.
  intros H. unfold find_bundle, removed. cbn -[key_is].
  apply find_filter_other. intros r. apply key_is_other. exact H.
Qed.

Lemma find_metadata_removed_other fk t i j :
  j <> i -> find_metadata j (removed fk t i) = find_metadata j t.
Proof.
  intros H. unfold find_metadata, removed. cbn -[key_is].
  destruct fk; [| reflexivity].
  apply find_filter_other. intros r. apply key_is_other. exact H.
Qed.

Lemma to_uint64_id (z : Z) : CInt.is_uint64 z -> CInt.to_uint64 z = z.
Proof.
  unfold CInt.is_uint64, CInt.to_uint64, CInt.UINT64_MAX. intros H.
  apply Z.mod_small. lia.
Qed.

(** X5.  Frame of a successful store: after [csqlite_store_bundle(i, p, m)]
    returned Ok, [csqlite_get_bundle] and [csqlite_has_bundle] answer as
    before for every other id, [csqlite_get_metadata] answers as before
    for every id other than the record's, and [csqlite_count_bundles] is
    one more than before. *)
Theorem store_frame malloc (c : CSQLiteDB) i p n m c1 :
  csqlite_store_bundle (Some c) (Some i) (Some p) n (Some m) = (CSQLITE_OK, Some c1) ->
  Z.of_nat (List.length (bundles (db_tables c))) < CInt.UINT64_MAX ->
  (forall j d0 s0, j <> i ->
      fst (csqlite_get_bundle malloc (Some c1) (Some j) (Some d0) (Some s0)) =
      fst (csqlite_get_bundle malloc (Some c) (Some j) (Some d0) (Some s0))) /\
  (forall j m0, meta_id m <> Some j ->
      fst (csqlite_get_metadata malloc (Some c1) (Some j) (Some m0)) =
      fst (csqlite_get_metadata malloc (Some c) (Some j) (Some m0))) /\
  (forall j e0, j <> i ->
      fst (csqlite_has_bundle (Some c1) (Some j) (Some e0)) =
      fst (csqlite_has_bundle (Some c) (Some j) (Some e0))) /\
  fst (csqlite_count_bundles (Some c1)) = fst (csqlite_count_bundles (Some c)) + 1.
Proof.
  intros Hstore Hlen.
  apply store_ok_inv in Hstore as (s & d & Hc1 & _).
  injection Hc1 as ->.
  repeat split.
  - intros j d0 s0 Hj. rewrite !get_bundle_eq. cbn -[find_bundle stored].
    rewrite find_bundle_stored_other by exact Hj.
    destruct (find_bundle j (db_tables c)); cbn; [| reflexivity].
    destruct (malloc _); reflexivity.
  - intros j m0 Hj. rewrite !get_metadata_eq. cbn -[find_metadata stored].
    rewrite find_metadata_stored_other by exact Hj.
    destruct (find_metadata j (db_tables c)); reflexivity.
  - intros j e0 Hj. rewrite !has_bundle_eq. cbn -[has_bundle_row stored].
    unfold has_bundle_row, stored. cbn -[key_is]. rewrite existsb_app. cbn -[key_is].
    rewrite key_is_sym_false by exact Hj. rewrite !orb_false_r. reflexivity.
  - rewrite !count_bundles_eq. cbn -[CInt.to_uint64].
    rewrite length_app. simpl List.length.
    unfold CInt.UINT64_MAX in Hlen.
    rewrite !to_uint64_id by (unfold CInt.is_uint64, CInt.UINT64_MAX; lia).
    lia.
Qed.

(* ---- unique ids ---- *)

Lemma existsb_key_in (i : string) (ks : list (option string)) :
  existsb (key_is i) ks = true <-> In (Some i) ks.
Proof.
  rewrite existsb_exists. split.
  - intros (k & Hin & Hk). apply key_is_true in Hk. subst k. exact Hin.
  - intros Hin. exists (Some i). split; [exact Hin | apply key_is_refl].
Qed.

Lemma existsb_map_key {A B} (f : B -> bool) (g : A -> B) (l : list A) :
  existsb (fun r => f (g r)) l = existsb f (map g l).
Proof. induction l as [| a l IH]; simpl; [reflexivity | rewrite IH; reflexivity]. Qed.

Lemma map_filter_key {A B} (h : B -> bool) (g : A -> B) (l : list A) :
  map g (filter (fun r => h (g r)) l) = filter h (map g l).
Proof.
  induction l as [| a l IH]; simpl; [reflexivity |].
  destruct (h (g a)); simpl; rewrite IH; reflexivity.
Qed.

Lemma NoDup_snoc {A} (l : list A) (a : A) :
  NoDup l -> ~ In a l -> NoDup (l ++ [a]).
Proof.
  induction l as [| b l IH]; simpl; intros Hl Ha.
  - constructor; [intros [] | constructor].
  - inversion Hl as [| ? ? Hb Hl']; subst. constructor.
    + rewrite in_app_iff. simpl. intros [H | [H | []]]; [contradiction | subst; tauto].
    + apply IH; tauto.
Qed.

Lemma has_bundle_row_in (i : string) (c : CSQLiteDB) :
  has_bundle_row i (db_tables c) = true <-> In (Some i) (bundle_ids c).
Proof.
  unfold has_bundle_row, bundle_ids. rewrite <- existsb_key_in.
  rewrite <- (existsb_map_key (key_is i) bundle_key). reflexivity.
Qed.

Lemma bundle_ids_removed (c : CSQLiteDB) fk n i :
  bundle_ids (set_tables c (removed fk (db_tables c) i) n) =
  filter (fun k => negb (key_is i k)) (bundle_ids c).
Proof.
  unfold bundle_ids, removed. cbn -[key_is].
  apply (map_filter_key (fun k => negb (key_is i k)) bundle_key).
Qed.


Lemma unique_ids_run (c c' : CSQLiteDB) (k : call) :
  transaction c = None -> unique_ids c -> run (Some c) k = Some c' -> unique_ids c'.
Proof.
  intros Ht [Hnd Hnn] Hrun.
  destruct k as [[i |] [p |] n [m |] | [m |] | [i |]]; unfold run in Hrun;
    try (simpl in Hrun; injection Hrun as <-; split; assumption).
  - destruct (store_cases c i p n m Ht)
      as [(s & d & Hr & _ & Hfresh & _) | [_ [z Hz]]].
    + rewrite Hr in Hrun. simpl in Hrun. injection Hrun as <-.
      unfold unique_ids, bundle_ids, committed, stored. cbn -[key_is].
      rewrite map_app. simpl map. split.
      * apply NoDup_snoc; [exact Hnd |].
        intros Hin. apply has_bundle_row_in in Hin. congruence.
      * apply Forall_app. split; [exact Hnn |]. constructor; [discriminate | constructor].
    + rewrite Hz in Hrun. injection Hrun as <-. split; assumption.
  - destruct (meta_id m) as [i |] eqn:Hid.
    + rewrite (update_eq c m i Hid) in Hrun.
      destruct (has_metadata_row i (db_tables c));
        [destruct (meta_source m), (meta_destination m) |];
        injection Hrun as <-; split; assumption.
    + unfold csqlite_update_metadata in Hrun. rewrite Hid in Hrun.
      injection Hrun as <-. split; assumption.
  - rewrite remove_eq in Hrun.
    destruct (has_bundle_row i (db_tables c));
      injection Hrun as <-; try (split; assumption).
    unfold unique_ids. rewrite bundle_ids_removed. split.
    + apply NoDup_filter. exact Hnd.
    + apply Forall_forall. intros k Hk. apply filter_In in Hk as [Hk _].
      revert k Hk. apply Forall_forall. exact Hnn.
Qed.

Lemma reachable_unique_ids (c : CSQLiteDB) : reachable c -> unique_ids c.
Proof.
  induction 1 as [malloc path result c Hopen | c k c' Hc IH _ Hrun].
  - apply csqlite_open_opened in Hopen. subst c. split; constructor.
  - destruct (reachable_connection c Hc) as [_ Ht].
    exact (unique_ids_run c c' k Ht IH Hrun).
Qed.

Lemma filter_out_absent {A} (f : A -> bool) (l : list A) :
  existsb f l = false -> filter (fun a => negb (f a)) l = l.
Proof.
  induction l as [| a l IH]; simpl; [reflexivity |].
  intros H. apply orb_false_iff in H as [Ha Hl].
  rewrite Ha. simpl. f_equal. auto.
Qed.

Lemma length_filter_out_unique (i : string) (ks : list (option string)) :
  NoDup ks -> In (Some i) ks ->
  (List.length (filter (fun k => negb (key_is i k)) ks) + 1)%nat = List.length ks.
Proof.
  induction ks as [| k ks IH]; cbn -[key_is]; intros Hnd Hin; [contradiction |].
  inversion Hnd as [| ? ? Hk Hnd']; subst.
  destruct (key_is i k) eqn:Hkey; cbn -[key_is].
  - apply key_is_true in Hkey. subst k.
    rewrite filter_out_absent; [lia |].
    destruct (existsb (key_is i) ks) eqn:He; [| reflexivity].
    apply existsb_key_in in He. contradiction.
  - destruct Hin as [-> | Hin]; [rewrite key_is_refl in Hkey; discriminate |].
    rewrite <- (IH Hnd' Hin). lia.
Qed.

Lemma length_filter_split {A} (f : A -> bool) (l : list A) :
  (List.length (filter f l) + List.length (filter (fun a => negb (f a)) l))%nat
  = List.length l.
Proof.
  induction l as [| a l IH]; simpl; [reflexivity |].
  destruct (f a); simpl; lia.
Qed.

Lemma length_removed_bundles (c : CSQLiteDB) i :
  unique_ids c -> has_bundle_row i (db_tables c) = true ->
  (List.length (filter (fun r => negb (key_is i (bundle_key r))) (bundles (db_tables c))) + 1)%nat
  = List.length (bundles (db_tables c)).
Proof.
  intros [Hnd _] Hhas.
  pose proof (proj1 (has_bundle_row_in i c) Hhas) as Hin.
  pose proof (length_filter_out_unique i (bundle_ids c) Hnd Hin) as Hlen.
  unfold bundle_ids in Hlen.
  rewrite <- (map_filter_key (fun k => negb (key_is i k)) bundle_key) in Hlen.
  rewrite !length_map in Hlen. exact Hlen.
Qed.

(** X6.  Frame of a successful removal: in a reachable store, after
    [csqlite_remove_bundle(i)] returned Ok, exactly one row was deleted
    (bundle ids are unique), [csqlite_count_bundles] is one less than
    before, and [csqlite_get_bundle], [csqlite_get_metadata] and
    [csqlite_has_bundle] answer as before for every other id. *)
Theorem remove_frame malloc (c : CSQLiteDB) i c1 :
  reachable c ->
  csqlite_remove_bundle (Some c) (Some i) = (CSQLITE_OK, Some c1) ->
  Z.of_nat (List.length (bundles (db_tables c))) <= CInt.UINT64_MAX ->
  (forall j d0 s0, j <> i ->
      fst (csqlite_get_bundle malloc (Some c1) (Some j) (Some d0) (Some s0)) =
      fst (csqlite_get_bundle malloc (Some c) (Some j) (Some d0) (Some s0))) /\
  (forall j m0, j <> i ->
      fst (csqlite_get_metadata malloc (Some c1) (Some j) (Some m0)) =
      fst (csqlite_get_metadata malloc (Some c) (Some j) (Some m0))) /\
  (forall j e0, j <> i ->
      fst (csqlite_has_bundle (Some c1) (Some j) (Some e0)) =
      fst (csqlite_has_bundle (Some c) (Some j) (Some e0))) /\
  sqlite3_changes c1 = 1 /\
  fst (csqlite_count_bundles (Some c1)) + 1 = fst (csqlite_count_bundles (Some c)).
Proof.
  intros Hreach Hrem Hmax.
  pose proof (reachable_unique_ids c Hreach) as Huniq.
  rewrite remove_eq in Hrem.
  destruct (has_bundle_row i (db_tables c)) eqn:Hhas; [| discriminate].
  injection Hrem as <-.
  pose proof (length_removed_bundles c i Huniq Hhas) as Hlen.
  pose proof (length_filter_split (fun r => key_is i (bundle_key r))
                (bundles (db_tables c))) as Hsplit.
  repeat split.
  - intros j d0 s0 Hj. rewrite !get_bundle_eq. cbn -[find_bundle removed].
    rewrite find_bundle_removed_other by exact Hj.
    destruct (find_bundle j (db_tables c)); cbn; [| reflexivity].
    destruct (malloc _); reflexivity.
  - intros j m0 Hj. rewrite !get_metadata_eq. cbn -[find_metadata removed].
    rewrite find_metadata_removed_other by exact Hj.
    destruct (find_metadata j (db_tables c)); reflexivity.
  - intros j e0 Hj. rewrite !has_bundle_eq. cbn -[has_bundle_row removed].
    rewrite has_bundle_row_removed.
    destruct (String.eqb_spec j i); [contradiction | reflexivity].
  - cbn -[key_is]. unfold count_matching.
    revert Hlen Hsplit. generalize (List.length (bundles (db_tables c))).
    generalize (List.length (filter (fun r => key_is i (bundle_key r))
                                    (bundles (db_tables c)))).
    generalize (List.length (filter (fun r => negb (key_is i (bundle_key r)))
                                    (bundles (db_tables c)))).
    intros; lia.
  - rewrite !count_bundles_eq. cbn -[CInt.to_uint64 key_is].
    unfold CInt.UINT64_MAX in Hmax. revert Hlen Hmax.
    generalize (List.length (bundles (db_tables c))).
    generalize (List.length (filter (fun r => negb (key_is i (bundle_key r)))
                                    (bundles (db_tables c)))).
    intros a b Hlen Hmax.
    rewrite !to_uint64_id by (unfold CInt.is_uint64, CInt.UINT64_MAX; lia).
    lia.
Qed.

(** X7.  [csqlite_has_bundle] always returns Ok, and the flag it writes is
    true exactly when [csqlite_get_bundle] on the same id does not return
    NotFound. *)
Theorem has_bundle_agrees_with_get_bundle malloc (c : CSQLiteDB) i e0 d0 s0 :
  exists b,
    csqlite_has_bundle (Some c) (Some i) (Some e0) = (CSQLITE_OK, Some b, Some c) /\
    (b = true <->
     fst (fst (fst (csqlite_get_bundle malloc (Some c) (Some i) (Some d0) (Some s0))))
     <> CSQLITE_NOT_FOUND).
Proof.
  exists (has_bundle_row i (db_tables c)). split; [apply has_bundle_eq |].
  rewrite get_bundle_eq. unfold has_bundle_row, find_bundle.
  destruct (find _ (bundles (db_tables c))) as [r |] eqn:Hf.
  - assert (He : existsb (fun r => key_is i (bundle_key r)) (bundles (db_tables c)) = true).
    { destruct (existsb _ _) eqn:He; [reflexivity |].
      apply find_none_existsb in He. congruence. }
    rewrite He. cbn.
    destruct (malloc _); split; intros; (discriminate || reflexivity).
  - apply find_none_existsb in Hf. rewrite Hf. cbn. split; [discriminate | congruence].
Qed.

(** X13.  Removal is idempotent: whatever the first
    [csqlite_remove_bundle(i)] returned, a second one returns NotFound and
    leaves the tables as the first left them. *)
Theorem remove_twice (c : CSQLiteDB) i :
  exists c1 c2,
    snd (csqlite_remove_bundle (Some c) (Some i)) = Some c1 /\
    csqlite_remove_bundle (Some c1) (Some i) = (CSQLITE_NOT_FOUND, Some c2) /\
    db_tables c2 = db_tables c1.
Proof.
  rewrite remove_eq.
  destruct (has_bundle_row i (db_tables c)) eqn:Hhas.
  - eexists. eexists. split; [reflexivity |].
    rewrite remove_eq. cbn -[removed count_matching has_bundle_row].
    rewrite has_bundle_row_removed, String.eqb_refl. split; reflexivity.
  - eexists. eexists. split; [reflexivity |].
    rewrite remove_eq. cbn -[count_matching has_bundle_row]. rewrite Hhas.
    split; reflexivity.
Qed.

(* ---- list operations ---- *)

Lemma strdup_succeeds malloc (k : ptr string) :
  malloc_succeeds malloc -> csqlite_strdup malloc k = k.
Proof.
  intros H. destruct k as [s |]; [| reflexivity].
  unfold csqlite_strdup. rewrite H. reflexivity.
Qed.

Lemma map_strdup_succeeds malloc (ks : list (ptr string)) :
  malloc_succeeds malloc -> map (csqlite_strdup malloc) ks = ks.
Proof.
  intros H. induction ks as [| k ks IH]; simpl; [reflexivity |].
  rewrite strdup_succeeds, IH by exact H. reflexivity.
Qed.

Lemma get_all_ids_succeeds malloc (c : CSQLiteDB) ids0 count0 :
  malloc_succeeds malloc ->
  Z.of_nat (List.length (bundles (db_tables c))) * CInt.sizeof_ptr <= CInt.UINT64_MAX ->
  exists arr,
    csqlite_get_all_ids malloc (Some c) (Some ids0) (Some count0)
      = (CSQLITE_OK, Some arr, Some (Z.of_nat (List.length (bundles (db_tables c)))), Some c) /\
    listed arr = bundle_ids c /\
    (arr = None <-> bundles (db_tables c) = []).
Proof.
  intros Hm Hmax. rewrite get_all_ids_eq by exact Hmax. cbv zeta.
  destruct (bundles (db_tables c)) as [| r l] eqn:Hb.
  - exists None. unfold bundle_ids. rewrite Hb. repeat split.
  - rewrite Hm.
    replace (Z.of_nat (List.length (r :: l)) =? 0) with false
      by (symmetry; apply Z.eqb_neq; simpl List.length; lia).
    eexists. split; [reflexivity |]. split.
    + unfold listed, bundle_ids. rewrite Hb.
      rewrite <- (map_map bundle_key (csqlite_strdup malloc)).
      apply map_strdup_succeeds. exact Hm.
    + split; discriminate.
Qed.

(** X8.  [csqlite_get_all_ids] lists the store: when no allocation fails
    it returns Ok, the count it writes is the value of
    [csqlite_count_bundles], the array is null exactly when that count is
    0, and an id is in the array exactly when [csqlite_has_bundle] says
    it exists. *)
Theorem get_all_ids_lists_the_store malloc (c : CSQLiteDB) ids0 count0 :
  malloc_succeeds malloc ->
  Z.of_nat (List.length (bundles (db_tables c))) * CInt.sizeof_ptr <= CInt.UINT64_MAX ->
  exists arr,
    csqlite_get_all_ids malloc (Some c) (Some ids0) (Some count0)
      = (CSQLITE_OK, Some arr, Some (fst (csqlite_count_bundles (Some c))), Some c) /\
    Z.of_nat (List.length (listed arr)) = fst (csqlite_count_bundles (Some c)) /\
    (arr = None <-> fst (csqlite_count_bundles (Some c)) = 0) /\
    (forall i e0,
        In (Some i) (listed arr) <->
        csqlite_has_bundle (Some c) (Some i) (Some e0) = (CSQLITE_OK, Some true, Some c)).
Proof.
  intros Hm Hmax.
  destruct (get_all_ids_succeeds malloc c ids0 count0 Hm Hmax) as (arr & Hcall & Hl & Hnull).
  assert (Hcount : fst (csqlite_count_bundles (Some c))
                   = Z.of_nat (List.length (bundles (db_tables c)))).
  { rewrite count_bundles_eq. cbn -[CInt.to_uint64].
    apply to_uint64_id. unfold CInt.is_uint64.
    unfold CInt.sizeof_ptr, CInt.UINT64_MAX in *.
    revert Hmax. generalize (List.length (bundles (db_tables c))). intros; lia. }
  exists arr. rewrite Hcount. split; [exact Hcall |]. split; [| split].
  - rewrite Hl. unfold bundle_ids. rewrite length_map. reflexivity.
  - rewrite Hnull. destruct (bundles (db_tables c)); simpl List.length; split;
      intros H; try reflexivity; try discriminate; lia.
  - intros i e0. rewrite Hl, <- has_bundle_row_in, has_bundle_eq.
    split; [intros ->; reflexivity | intros H; congruence].
Qed.


(* ---- aligned tables ---- *)










(** X14.  [csqlite_update_metadata] with a null [source] or [destination]
    on an existing id returns Error and leaves both tables as they
    were. *)
Theorem update_null_string_refused (c : CSQLiteDB) m i :
  meta_id m = Some i ->
  meta_source m = None \/ meta_destination m = None ->
  has_metadata_row i (db_tables c) = true ->
  exists c',
    csqlite_update_metadata (Some c) (Some m) = (CSQLITE_ERROR, Some c') /\
    db_tables c' = db_tables c.
Proof.
  intros Hid Hnull Hhas. rewrite (update_eq c m i Hid), Hhas.
  destruct (meta_source m), (meta_destination m);
    try (eexists; split; reflexivity).
  destruct Hnull; discriminate.
Qed.

Lemma updated_twice t i s d m :
  updated (updated t i s d m) i s d m = updated t i s d m.
Proof.
  unfold updated. cbn -[key_is]. f_equal. rewrite map_map. apply map_ext.
  intros r. destruct (key_is i (md_id r)) eqn:Hk; cbn -[key_is]; rewrite Hk; reflexivity.
Qed.

(** X15.  Updating twice with the same record: the second
    [csqlite_update_metadata] returns Ok again (the row counts as changed
    although its values are the same) and leaves the tables as the first
    left them. *)
Theorem update_twice (c : CSQLiteDB) m i c1 :
  meta_id m = Some i ->
  csqlite_update_metadata (Some c) (Some m) = (CSQLITE_OK, Some c1) ->
  exists c2,
    csqlite_update_metadata (Some c1) (Some m) = (CSQLITE_OK, Some c2) /\
    db_tables c2 = db_tables c1.
Proof.
  intros Hid Hupd. rewrite (update_eq c m i Hid) in Hupd.
  destruct (has_metadata_row i (db_tables c)) eqn:Hhas; [| discriminate].
  destruct (meta_source m) as [s |] eqn:Hs; [| discriminate].
  destruct (meta_destination m) as [d |] eqn:Hd; [| discriminate].
  injection Hupd as <-.
  rewrite (update_eq _ m i Hid). cbn -[updated count_matching has_metadata_row].
  rewrite has_metadata_row_updated, Hhas, Hs, Hd.
  eexists. split; [reflexivity |]. cbn -[updated]. apply updated_twice.
Qed.

Lemma to_int64_stored (z : Z) : CInt.is_uint64 z -> CInt.to_int64 z = stored_uint64 z.
Proof.
  unfold CInt.is_uint64, CInt.UINT64_MAX, CInt.to_int64, stored_uint64. intros H.
  destruct (Z.ltb_spec z (2 ^ 63)).
  - rewrite Z.mod_small by lia. lia.
  - replace (z + 2 ^ 63) with ((z - 2 ^ 63) + 1 * 2 ^ 64) by lia.
    rewrite Z.mod_add by lia. rewrite Z.mod_small by lia. lia.
Qed.

(** X16.  How the [uint64_t] fields are held: after a successful store, the
    metadata row of [i] holds [creation_time] and [size] as signed 64-bit
    integers, a value of 2^63 or more as the negative number
    [value - 2^64]; [constraints] is held as it is. *)
Theorem uint64_fields_are_stored_signed (c : CSQLiteDB) i p n m c1 :
  csqlite_store_bundle (Some c) (Some i) (Some p) n (Some m) = (CSQLITE_OK, Some c1) ->
  meta_id m = Some i -> in_range m ->
  exists r,
    find_metadata i (db_tables c1) = Some r /\
    md_creation_time r = stored_uint64 (meta_creation_time m) /\
    md_size r = stored_uint64 (meta_size m) /\
    md_constraints r = meta_constraints m /\
    (2 ^ 63 <= meta_creation_time m -> md_creation_time r < 0) /\
    (2 ^ 63 <= meta_size m -> md_size r < 0).
Proof.
  intros Hstore Hid (Hct & Hsz & _).
  apply store_ok_inv in Hstore as (s & d & Hc1 & _ & _ & _ & _ & _ & Hmeta).
  injection Hc1 as ->. rewrite Hid in Hmeta. destruct Hmeta as [Hfresh _].
  eexists. split.
  - cbn -[find_metadata stored]. apply find_metadata_stored; [exact Hfresh |].
    rewrite Hid. reflexivity.
  - unfold row_of. cbn.
    rewrite !to_int64_stored by assumption.
    unfold stored_uint64, CInt.is_uint64, CInt.UINT64_MAX in *.
    repeat split.
    + intros H. destruct (Z.ltb_spec (meta_creation_time m) (2 ^ 63)); lia.
    + intros H. destruct (Z.ltb_spec (meta_size m) (2 ^ 63)); lia.
Qed.

(** X17.  [csqlite_get_metadata] does not report a failed string copy: when
    the row exists it returns Ok whatever the allocator does; the [id] it
    returns is the stored one or null, and with an allocator that never
    finds memory all three strings of the record are null. *)
Theorem get_metadata_reports_no_allocation_failure malloc (c : CSQLiteDB) i m0 :
  has_metadata_row i (db_tables c) = true ->
  exists m',
    csqlite_get_metadata malloc (Some c) (Some i) (Some m0) = (CSQLITE_OK, Some m', Some c) /\
    (meta_id m' = Some i \/ meta_id m' = None) /\
    ((forall n, malloc n = false) ->
     meta_id m' = None /\ meta_source m' = None /\ meta_destination m' = None).
Proof.
  intros Hhas. rewrite get_metadata_eq. unfold find_metadata.
  destruct (find _ (bundle_metadata (db_tables c))) as [r |] eqn:Hf.
  - exists (record_of malloc r). split; [reflexivity |].
    apply find_some in Hf as [_ Hk]. apply key_is_true in Hk.
    unfold record_of. cbn -[csqlite_strdup]. rewrite Hk. split.
    + unfold csqlite_strdup. destruct (malloc _); auto.
    + intros Hnone. unfold csqlite_strdup. rewrite !Hnone. auto.
  - apply find_none_existsb in Hf. unfold has_metadata_row in Hhas. congruence.
Qed.

(* ----------------------------------------------------------------- *)
(** *** Instances of the further properties *)

Lemma malloc_always_succeeds : malloc_succeeds malloc_always.
Proof. intros n. reflexivity. Qed.

Lemma remove_b1_removed :
  csqlite_remove_bundle (Some store_b1) (Some b1) = (CSQLITE_OK, Some removed_b1).
Proof. reflexivity. Qed.

Lemma small_length : 0 <= CInt.to_int 3 <= SQLITE_MAX_LENGTH.
Proof. vm_compute. split; discriminate. Qed.

Lemma store_null_string_refused_witness :
  transaction opened = None /\
  (meta_source no_source_metadata = None \/ meta_destination no_source_metadata = None) /\
  has_bundle_row b1 (db_tables opened) = false /\
  0 <= CInt.to_int 3 <= SQLITE_MAX_LENGTH /\
  exists c',
    csqlite_store_bundle (Some opened) (Some b1) (Some payload_b1) 3
                         (Some no_source_metadata) = (CSQLITE_ERROR, Some c') /\
    db_tables c' = db_tables opened.
Proof.
  split; [reflexivity |]. split; [left; reflexivity |]. split; [reflexivity |].
  split; [exact small_length |].
  destruct (store_null_string_refused opened b1 payload_b1 3 no_source_metadata
              eq_refl (or_introl eq_refl) eq_refl small_length)
    as (c' & Hcall & Htables & _).
  exists c'. exact (conj Hcall Htables).
Defined.

Lemma store_frame_witness :
  csqlite_store_bundle (Some opened) (Some b1) (Some payload_b1)
                       (Z.of_nat (List.length payload_b1))
                       (Some (sample_metadata (Some b1)))
    = (CSQLITE_OK, Some store_b1) /\
  Z.of_nat (List.length (bundles (db_tables opened))) < CInt.UINT64_MAX /\
  fst (csqlite_count_bundles (Some store_b1)) = fst (csqlite_count_bundles (Some opened)) + 1.
Proof.
  assert (Hlen : Z.of_nat (List.length (bundles (db_tables opened))) < CInt.UINT64_MAX)
    by reflexivity.
  split; [exact store_b1_stored |]. split; [exact Hlen |].
  exact (proj2 (proj2 (proj2
           (store_frame malloc_always opened b1 payload_b1 _ (sample_metadata (Some b1))
                        store_b1 store_b1_stored Hlen)))).
Defined.

Lemma remove_frame_witness :
  reachable store_b1 /\
  csqlite_remove_bundle (Some store_b1) (Some b1) = (CSQLITE_OK, Some removed_b1) /\
  Z.of_nat (List.length (bundles (db_tables store_b1))) <= CInt.UINT64_MAX /\
  sqlite3_changes removed_b1 = 1 /\
  fst (csqlite_count_bundles (Some removed_b1)) + 1
    = fst (csqlite_count_bundles (Some store_b1)).
Proof.
  assert (Hr : reachable store_b1) by exact (reachable_by_any _ _ reachable_store_b1).
  assert (Hlen : Z.of_nat (List.length (bundles (db_tables store_b1))) <= CInt.UINT64_MAX)
    by (vm_compute; discriminate).
  split; [exact Hr |]. split; [exact remove_b1_removed |]. split; [exact Hlen |].
  exact (proj2 (proj2 (proj2
           (remove_frame malloc_always store_b1 b1 removed_b1 Hr remove_b1_removed Hlen)))).
Defined.

Lemma ids_bound_b1 :
  Z.of_nat (List.length (bundles (db_tables store_b1))) * CInt.sizeof_ptr
  <= CInt.UINT64_MAX.
Proof. vm_compute. discriminate. Qed.


Lemma get_all_ids_lists_the_store_witness :
  malloc_succeeds malloc_always /\
  Z.of_nat (List.length (bundles (db_tables store_b1))) * CInt.sizeof_ptr
    <= CInt.UINT64_MAX /\
  exists arr,
    csqlite_get_all_ids malloc_always (Some store_b1) (Some None) (Some 0)
      = (CSQLITE_OK, Some arr, Some 1, Some store_b1) /\
    Z.of_nat (List.length (listed arr)) = 1.
Proof.
  split; [exact malloc_always_succeeds |]. split; [exact ids_bound_b1 |].
  destruct (get_all_ids_lists_the_store malloc_always store_b1 None 0
              malloc_always_succeeds ids_bound_b1)
    as (arr & Hcall & Hlen & _).
  exists arr. exact (conj Hcall Hlen).
Defined.





Lemma update_null_string_refused_witness :
  meta_id no_source_metadata = Some b1 /\
  (meta_source no_source_metadata = None \/ meta_destination no_source_metadata = None) /\
  has_metadata_row b1 (db_tables store_b1) = true /\
  exists c',
    csqlite_update_metadata (Some store_b1) (Some no_source_metadata)
      = (CSQLITE_ERROR, Some c') /\
    db_tables c' = db_tables store_b1.
Proof.
  split; [reflexivity |]. split; [left; reflexivity |]. split; [reflexivity |].
  exact (update_null_string_refused store_b1 no_source_metadata b1
           eq_refl (or_introl eq_refl) eq_refl).
Defined.

Lemma update_twice_witness :
  meta_id (sample_metadata (Some b1)) = Some b1 /\
  csqlite_update_metadata (Some store_b1) (Some (sample_metadata (Some b1)))
    = (CSQLITE_OK, Some store_b1) /\
  exists c2,
    csqlite_update_metadata (Some store_b1) (Some (sample_metadata (Some b1)))
      = (CSQLITE_OK, Some c2) /\
    db_tables c2 = db_tables store_b1.
Proof.
  split; [reflexivity |]. split; [reflexivity |].
  exact (update_twice store_b1 (sample_metadata (Some b1)) b1 store_b1 eq_refl eq_refl).
Defined.

Lemma in_range_late : in_range late_metadata.
Proof.
  unfold in_range, CInt.is_uint64, CInt.is_int, CInt.UINT64_MAX, CInt.INT_MAX.
  simpl. lia.
Qed.

Lemma uint64_fields_are_stored_signed_witness :
  csqlite_store_bundle (Some opened) (Some b1) (Some payload_b1) 3 (Some late_metadata)
    = (CSQLITE_OK, Some store_late) /\
  meta_id late_metadata = Some b1 /\
  in_range late_metadata /\
  exists r,
    find_metadata b1 (db_tables store_late) = Some r /\
    md_creation_time r = - 9223372036854775808.
Proof.
  split; [reflexivity |]. split; [reflexivity |]. split; [exact in_range_late |].
  destruct (uint64_fields_are_stored_signed opened b1 payload_b1 3 late_metadata
              store_late eq_refl eq_refl in_range_late)
    as (r & Hfind & Hct & _).
  exists r. exact (conj Hfind Hct).
Defined.

Lemma get_metadata_reports_no_allocation_failure_witness :
  has_metadata_row b1 (db_tables store_b1) = true /\
  exists m',
    csqlite_get_metadata malloc_never (Some store_b1) (Some b1)
                         (Some (sample_metadata None))
      = (CSQLITE_OK, Some m', Some store_b1) /\
    meta_id m' = None /\ meta_source m' = None /\ meta_destination m' = None.
Proof.
  split; [reflexivity |].
  destruct (get_metadata_reports_no_allocation_failure malloc_never store_b1 b1
              (sample_metadata None) eq_refl)
    as (m' & Hcall & _ & Hnull).
  exists m'. exact (conj Hcall (Hnull (fun _ => eq_refl))).
Defined.
